(** * The map dashboard of [tasks/dvc_ex4_23756554.py]

    A shallow embedding of the view-state flow of the interactive map
    script: the recomputation [create_df], the three callbacks
    [tap_update], [slider_update], [update_year] and the animation toggle
    [play], together with the properties their specification states.

    Numbers.  The script computes on IEEE doubles.  Here every finite cell
    is an exact rational ([Q]) and a missing cell ([np.nan]) is [None];
    [np.log10] followed by [round] is modelled by its exact real-number
    meaning, which for a rational argument is decided by integer
    comparisons of powers (see [Log10.round_log10]).

    Objects.  Data frames live in an object store and variables hold
    references into it, so that copying and writing in place are
    different things; the store only grows, since an object nobody refers
    to any more cannot be observed.

    Exceptions.  A callback returns or raises; what it wrote before it
    raised stays written, and the server goes on with the next event.

    Collaborators.  A data source holds the rows of the table last pushed
    to it (the index column bokeh adds to a pushed frame is left out);
    the document holds the periodic callbacks registered with it.  The
    colours of [Sunset[8]] and the function [np.log1p] are parameters.
    The column ['City'] is taken to have no missing cell. *)

From Stdlib Require Import ZArith QArith List String Ascii Bool Lia.
From Stdlib Require Import DecimalString.
Import ListNotations.

Local Open Scope Z_scope.

(** ** Logarithms of positive rationals, exactly *)

Module Log10.

(** [pow10_le k a b] reads [10^k <= a / b] for positive [a], [b]. *)
Definition pow10_le (k a b : Z) : Prop :=
  if 0 <=? k then b * 10 ^ k <= a else b <= a * 10 ^ (- k).

Definition pow10_leb (k a b : Z) : bool :=
  if 0 <=? k then b * 10 ^ k <=? a else b <=? a * 10 ^ (- k).

(** How many times [b] can be multiplied by ten and stay below [a]. *)
Fixpoint count_up (fuel : nat) (a b : Z) : Z :=
  match fuel with
  | O => 0
  | S f => if 10 * b <=? a then 1 + count_up f a (10 * b) else 0
  end.

(** How many times [a] must be multiplied by ten to reach [b]. *)
Fixpoint count_down (fuel : nat) (a b : Z) : Z :=
  match fuel with
  | O => 0
  | S f => if b <=? a then 0 else 1 + count_down f (10 * a) b
  end.

(** [floor_log10 a b] is the integer part (rounded down) of the decimal
    logarithm of [a / b], for positive [a] and [b]. *)
Definition floor_log10 (a b : Z) : Z :=
  if b <=? a
  then count_up (2 + Z.to_nat (Z.log2 a)) a b
  else - count_down (2 + Z.to_nat (Z.log2 b)) a b.

(** [round_log10 s a b] is the integer nearest to [s * log10 (a / b)]:
    the [r] with [10^(2r-1) <= (a/b)^(2s) < 10^(2r+1)].  A tie would need
    [(a/b)^(2s)] to be an odd power of ten, which no rational reaches, so
    the rounding mode never matters. *)
Definition round_log10 (s : Z) (a b : Z) : Z :=
  (floor_log10 (a ^ (2 * s)) (b ^ (2 * s)) + 1) / 2.

End Log10.

(** ** Floating values that may fail to be finite *)

Inductive npfloat : Type :=
| Finite (q : Q)
| NegInf
| NaN.

Inductive exn : Type :=
| KeyError
| IndexError
| ValueError
| OverflowError
| NameError.

Inductive outcome (A : Type) : Type :=
| Ok (a : A)
| Raise (e : exn).
Arguments Ok {A} a.
Arguments Raise {A} e.

Definition Qltb (p q : Q) : bool :=
  match Qcompare p q with Lt => true | _ => false end.

(** [np.log10(v)] rounded to [d] decimals when [s = 10^d]: a finite value
    for positive [v], [-inf] at zero, [nan] below. *)
Definition np_log10_round (s : positive) (v : Q) : npfloat :=
  if 0 <? Qnum v
  then Finite (Log10.round_log10 (Zpos s) (Qnum v) (QDen v) # s)
  else if Qnum v =? 0 then NegInf else NaN.

(** Python's [int] on a float: truncation toward zero, [ValueError] on
    [nan] and [OverflowError] on an infinity. *)
Definition py_int (f : npfloat) : outcome Z :=
  match f with
  | Finite q => Ok (Z.quot (Qnum q) (QDen q))
  | NegInf => Raise OverflowError
  | NaN => Raise ValueError
  end.


(** The shift of [create_df] before the logarithm. *)
Definition epsilon : Q := 2 # 10000.

(** ** The palette *)

Definition color : Type := string.

(** [Sunset[8]]: the eight colours of the palette, whose values are
    bokeh's; only their number matters here. *)
Record palette : Type := {
  c0 : color; c1 : color; c2 : color; c3 : color;
  c4 : color; c5 : color; c6 : color; c7 : color
}.

(** Indexing an 8-tuple the Python way: negative indices count from the
    end, anything outside [-8, 7] raises [IndexError]. *)
Definition palette_get (p : palette) (i : Z) : outcome color :=
  match (if i <? 0 then i + 8 else i) with
  | 0 => Ok (c0 p) | 1 => Ok (c1 p) | 2 => Ok (c2 p) | 3 => Ok (c3 p)
  | 4 => Ok (c4 p) | 5 => Ok (c5 p) | 6 => Ok (c6 p) | 7 => Ok (c7 p)
  | _ => Raise IndexError
  end.

(** ** Data frames *)

(** A row of [us_company_map]: the year-specific columns
    ['Market Cap <year>'] and ['Employees <year>'] are read through the
    year. *)
Record SourceRow : Type := {
  src_Symbol : option string;
  src_City : string;
  src_x : option Q;
  src_y : option Q;
  src_Market_Cap : Z -> option Q;
  src_Employees : Z -> option Q
}.

Record SourceTable : Type := {
  year_columns : list Z;
  source_rows : list SourceRow
}.

(** A row of [df0]: the six columns kept for one year. *)
Record WorkRow : Type := {
  w_Symbol : option string;
  w_City : string;
  w_x : option Q;
  w_y : option Q;
  w_Market_Cap : option Q;
  w_Employees : option Q
}.

(** A row of [df0.groupby('City').agg(...).reset_index()]. *)
Record GroupRow : Type := {
  g_City : string;
  g_Market_Cap : Q;
  g_Employees : Q;
  g_x : option Q;
  g_y : option Q;
  g_Symbol : nat
}.

(** A row of the table of the main plot. *)
Record AggRow : Type := {
  agg_group : GroupRow;
  agg_col : npfloat;
  agg_c_col : color;
  agg_circle_size : option Q
}.

(** A row of the table of the subplot. *)
Record SubRow : Type := {
  sub_row : WorkRow;
  sub_c_col : color;
  sub_circle_size : option Q
}.

Inductive table : Type :=
| MainTable (rows : list AggRow)
| SubTable (rows : list SubRow).

(** What a reference of the object store points to. *)
Inductive DataFrame : Type :=
| Source (t : SourceTable)
| Work (rows : list WorkRow).

(** *** pandas operations, [nan] skipped as pandas does *)

Definition sum_skipna (l : list (option Q)) : Q :=
  fold_right (fun c acc => match c with Some q => (q + acc)%Q | None => acc end)
    (0%Q) l.

Definition count_notna {A : Type} (l : list (option A)) : nat :=
  List.length (filter (fun c => match c with Some _ => true | None => false end) l).

Definition mean_skipna (l : list (option Q)) : option Q :=
  match count_notna l with
  | O => None
  | S n => Some (sum_skipna l / inject_Z (Z.of_nat (S n)))%Q
  end.

(** [us_company_map[[..., f'Market Cap {year}', f'Employees {year}']]]
    followed by the renaming: [KeyError] when the year has no column. *)
Definition project (year : Z) (t : SourceTable) : outcome (list WorkRow) :=
  if existsb (Z.eqb year) (year_columns t)
  then Ok (map (fun r => {| w_Symbol := src_Symbol r; w_City := src_City r;
                            w_x := src_x r; w_y := src_y r;
                            w_Market_Cap := src_Market_Cap r year;
                            w_Employees := src_Employees r year |})
              (source_rows t))
  else Raise KeyError.

(** [df0['Market Cap'] < market_cap_lower] on one row; [nan < v] is false. *)
Definition below (market_cap_lower : Q) (r : WorkRow) : bool :=
  match w_Market_Cap r with
  | Some m => Qltb m market_cap_lower
  | None => false
  end.

(** [df0.loc[mask, ['Symbol', 'Market Cap', 'Employees']] = np.nan] on one row. *)
Definition mask_row (market_cap_lower : Q) (r : WorkRow) : WorkRow :=
  if below market_cap_lower r
  then {| w_Symbol := None; w_City := w_City r; w_x := w_x r; w_y := w_y r;
          w_Market_Cap := None; w_Employees := None |}
  else r.

(** The rows the mask leaves as they are. *)
Definition qualifying (v : Q) (r : WorkRow) : bool := negb (below v r).

(** The group keys of [groupby('City')]: distinct, in increasing order. *)
Fixpoint insert_key (k : string) (ks : list string) : list string :=
  match ks with
  | [] => [k]
  | h :: t =>
      match String.compare k h with
      | Lt => k :: ks
      | Eq => ks
      | Gt => h :: insert_key k t
      end
  end.

Definition group_keys (rows : list WorkRow) : list string :=
  fold_right insert_key [] (map w_City rows).

Definition in_city (city : string) (r : WorkRow) : bool :=
  String.eqb (w_City r) city.

(** ['Market Cap': 'sum', 'Employees': 'sum', 'x': 'mean', 'y': 'mean',
    'Symbol': 'count'] for the group of one city. *)
Definition agg (rows : list WorkRow) (k : string) : GroupRow :=
  let members := filter (in_city k) rows in
  {| g_City := k;
     g_Market_Cap := sum_skipna (map w_Market_Cap members);
     g_Employees := sum_skipna (map w_Employees members);
     g_x := mean_skipna (map w_x members);
     g_y := mean_skipna (map w_y members);
     g_Symbol := count_notna (map w_Symbol members) |}.

(** City, sums and count of one group, over the rows the mask spared. *)
Definition group_summary (v : Q) (rows : list WorkRow) (k : string)
  : string * Q * Q * nat :=
  let members := filter (qualifying v) (filter (in_city k) rows) in
  (k, sum_skipna (map w_Market_Cap members),
      sum_skipna (map w_Employees members),
      count_notna (map w_Symbol members)).

Definition groupby_City_agg (rows : list WorkRow) : list GroupRow :=
  map (agg rows) (group_keys rows).

(** [max(0, int(v))], the index into the palette. *)
Definition color_index (v : npfloat) : outcome Z :=
  match py_int v with
  | Ok i => Ok (Z.max 0 i)
  | Raise e => Raise e
  end.

(** [df1['col']] for one group. *)
Definition col_of (g : GroupRow) : npfloat :=
  np_log10_round 100 (g_Market_Cap g + epsilon).

Definition outcome_map {A B : Type} (f : A -> B) (o : outcome A) : outcome B :=
  match o with
  | Ok a => Ok (f a)
  | Raise e => Raise e
  end.

(** ** The program state *)

(** The module-level variables of the script, the object store holding
    the data frames ([us_company_map] is its reference 0), and the
    collaborators' fields the callbacks write: the two data sources, the
    year label, the subplot title, the button label and the periodic
    callbacks of the document. *)
Record state : Type := {
  frames : list DataFrame;
  year : Z;
  city : string;
  market_cap_lower : Q;
  main_df : table;
  main_source : table;
  sub_source : table;
  label_text : string;
  title_text : string;
  btn_label : string;
  callback : option nat;
  session_callbacks : list nat;
  next_callback : nat
}.

Definition set_frames (v : list DataFrame) (s : state) : state :=
  {| frames := v; year := year s; city := city s;
     market_cap_lower := market_cap_lower s; main_df := main_df s;
     main_source := main_source s; sub_source := sub_source s;
     label_text := label_text s; title_text := title_text s;
     btn_label := btn_label s; callback := callback s;
     session_callbacks := session_callbacks s;
     next_callback := next_callback s |}.

Definition set_year (v : Z) (s : state) : state :=
  {| frames := frames s; year := v; city := city s;
     market_cap_lower := market_cap_lower s; main_df := main_df s;
     main_source := main_source s; sub_source := sub_source s;
     label_text := label_text s; title_text := title_text s;
     btn_label := btn_label s; callback := callback s;
     session_callbacks := session_callbacks s;
     next_callback := next_callback s |}.

Definition set_city (v : string) (s : state) : state :=
  {| frames := frames s; year := year s; city := v;
     market_cap_lower := market_cap_lower s; main_df := main_df s;
     main_source := main_source s; sub_source := sub_source s;
     label_text := label_text s; title_text := title_text s;
     btn_label := btn_label s; callback := callback s;
     session_callbacks := session_callbacks s;
     next_callback := next_callback s |}.

Definition set_market_cap_lower (v : Q) (s : state) : state :=
  {| frames := frames s; year := year s; city := city s;
     market_cap_lower := v; main_df := main_df s;
     main_source := main_source s; sub_source := sub_source s;
     label_text := label_text s; title_text := title_text s;
     btn_label := btn_label s; callback := callback s;
     session_callbacks := session_callbacks s;
     next_callback := next_callback s |}.

Definition set_main_df (v : table) (s : state) : state :=
  {| frames := frames s; year := year s; city := city s;
     market_cap_lower := market_cap_lower s; main_df := v;
     main_source := main_source s; sub_source := sub_source s;
     label_text := label_text s; title_text := title_text s;
     btn_label := btn_label s; callback := callback s;
     session_callbacks := session_callbacks s;
     next_callback := next_callback s |}.

Definition set_main_source (v : table) (s : state) : state :=
  {| frames := frames s; year := year s; city := city s;
     market_cap_lower := market_cap_lower s; main_df := main_df s;
     main_source := v; sub_source := sub_source s;
     label_text := label_text s; title_text := title_text s;
     btn_label := btn_label s; callback := callback s;
     session_callbacks := session_callbacks s;
     next_callback := next_callback s |}.

Definition set_sub_source (v : table) (s : state) : state :=
  {| frames := frames s; year := year s; city := city s;
     market_cap_lower := market_cap_lower s; main_df := main_df s;
     main_source := main_source s; sub_source := v;
     label_text := label_text s; title_text := title_text s;
     btn_label := btn_label s; callback := callback s;
     session_callbacks := session_callbacks s;
     next_callback := next_callback s |}.

Definition set_label_text (v : string) (s : state) : state :=
  {| frames := frames s; year := year s; city := city s;
     market_cap_lower := market_cap_lower s; main_df := main_df s;
     main_source := main_source s; sub_source := sub_source s;
     label_text := v; title_text := title_text s;
     btn_label := btn_label s; callback := callback s;
     session_callbacks := session_callbacks s;
     next_callback := next_callback s |}.

Definition set_title_text (v : string) (s : state) : state :=
  {| frames := frames s; year := year s; city := city s;
     market_cap_lower := market_cap_lower s; main_df := main_df s;
     main_source := main_source s; sub_source := sub_source s;
     label_text := label_text s; title_text := v;
     btn_label := btn_label s; callback := callback s;
     session_callbacks := session_callbacks s;
     next_callback := next_callback s |}.

Definition set_btn_label (v : string) (s : state) : state :=
  {| frames := frames s; year := year s; city := city s;
     market_cap_lower := market_cap_lower s; main_df := main_df s;
     main_source := main_source s; sub_source := sub_source s;
     label_text := label_text s; title_text := title_text s;
     btn_label := v; callback := callback s;
     session_callbacks := session_callbacks s;
     next_callback := next_callback s |}.

Definition set_callback (v : option nat) (s : state) : state :=
  {| frames := frames s; year := year s; city := city s;
     market_cap_lower := market_cap_lower s; main_df := main_df s;
     main_source := main_source s; sub_source := sub_source s;
     label_text := label_text s; title_text := title_text s;
     btn_label := btn_label s; callback := v;
     session_callbacks := session_callbacks s;
     next_callback := next_callback s |}.

Definition set_session_callbacks (v : list nat) (n : nat) (s : state) : state :=
  {| frames := frames s; year := year s; city := city s;
     market_cap_lower := market_cap_lower s; main_df := main_df s;
     main_source := main_source s; sub_source := sub_source s;
     label_text := label_text s; title_text := title_text s;
     btn_label := btn_label s; callback := callback s;
     session_callbacks := v;
     next_callback := n |}.

(** ** Callbacks as state transformers that may raise *)

(** A computation returns a value or raises, and leaves a state behind in
    both cases: what a callback wrote before it raised stays written. *)
Definition M (A : Type) : Type := state -> outcome A * state.

Definition ret {A : Type} (a : A) : M A := fun s => (Ok a, s).

Definition bind {A B : Type} (m : M A) (f : A -> M B) : M B :=
  fun s =>
    match m s with
    | (Ok a, s') => f a s'
    | (Raise e, s') => (Raise e, s')
    end.

Definition lift {A : Type} (o : outcome A) : M A := fun s => (o, s).

Definition gets {A : Type} (f : state -> A) : M A := fun s => (Ok (f s), s).

Definition modify (f : state -> state) : M unit := fun s => (Ok tt, f s).

Declare Scope dash_scope.
Delimit Scope dash_scope with dash.
Notation "x <- m ;; k" := (bind m (fun x => k))
  (at level 61, m at next level, right associativity) : dash_scope.
Notation "m ;;; k" := (bind m (fun _ => k))
  (at level 61, right associativity) : dash_scope.

(** [preserves proj m]: running [m] never changes the part [proj] of the
    state, whether [m] returns or raises. *)
Definition preserves {A B : Type} (proj : state -> A) (m : M B) : Prop :=
  forall s, proj (snd (m s)) = proj s.

(** *** The object store *)

(** The reference bound to the global [us_company_map]. *)
Definition us_company_map : nat := 0%nat.

Fixpoint store_at (r : nat) (f : DataFrame) (fs : list DataFrame) : list DataFrame :=
  match fs, r with
  | [], _ => []
  | _ :: t, O => f :: t
  | h :: t, S r' => h :: store_at r' f t
  end.

(** A new object gets the next free reference. *)
Definition alloc (f : DataFrame) : M nat :=
  fun s => (Ok (List.length (frames s)), set_frames (frames s ++ [f]) s).

Definition read_source (r : nat) : M SourceTable :=
  fun s =>
    match nth_error (frames s) r with
    | Some (Source t) => (Ok t, s)
    | Some (Work _) => (Raise KeyError, s)
    | None => (Raise NameError, s)
    end.

Definition read_work (r : nat) : M (list WorkRow) :=
  fun s =>
    match nth_error (frames s) r with
    | Some (Work rows) => (Ok rows, s)
    | Some (Source _) => (Raise KeyError, s)
    | None => (Raise NameError, s)
    end.

(** [df.loc[df['Market Cap'] < v, [...]] = np.nan], in place on the object
    the reference points to. *)
Definition loc_set_nan (r : nat) (market_cap_lower : Q) : M unit :=
  fun s =>
    match nth_error (frames s) r with
    | Some (Work rows) =>
        (Ok tt, set_frames (store_at r (Work (map (mask_row market_cap_lower) rows))
                                     (frames s)) s)
    | Some (Source _) => (Raise KeyError, s)
    | None => (Raise NameError, s)
    end.

(** ** The script *)

Module Dashboard.
Section Script.

Local Open Scope dash_scope.

(** bokeh's [Sunset[8]] and numpy's [log1p] (no value where it is not
    finite) are taken as given. *)
Variable Sunset8 : palette.
Variable log1p : Q -> option Q.

Definition Y_min : Z := 2019.
Definition Y_max : Z := 2022.

(** [np.log1p(e) * 3], [nan] staying [nan]. *)
Definition circle_size (e : option Q) : option Q :=
  match e with
  | Some q => match log1p q with Some l => Some (l * 3)%Q | None => None end
  | None => None
  end.

(** The loop filling [c_col]: it raises at the first group whose index
    cannot be computed or lies outside the palette. *)
Fixpoint color_loop (col : list npfloat) : outcome (list color) :=
  match col with
  | [] => Ok []
  | v :: rest =>
      match color_index v with
      | Raise e => Raise e
      | Ok i =>
          match palette_get Sunset8 i with
          | Raise e => Raise e
          | Ok c =>
              match color_loop rest with
              | Raise e => Raise e
              | Ok cs => Ok (c :: cs)
              end
          end
      end
  end.

Definition main_row (g : GroupRow) (c : color) : AggRow :=
  {| agg_group := g; agg_col := col_of g; agg_c_col := c;
     agg_circle_size := circle_size (Some (g_Employees g)) |}.

(** The [main] branch, from the masked [df0] on. *)
Definition main_table (df0 : list WorkRow) : outcome table :=
  let df1 := groupby_City_agg df0 in
  match color_loop (map col_of df1) with
  | Raise e => Raise e
  | Ok c_col => Ok (MainTable (map (fun gc => main_row (fst gc) (snd gc))
                                   (combine df1 c_col)))
  end.

Definition sub_row_of (c : color) (r : WorkRow) : SubRow :=
  {| sub_row := r; sub_c_col := c; sub_circle_size := circle_size (w_Employees r) |}.

(** The other branch, from the masked [df0] on: the rows of the city, all
    in the colour of the city's total. *)
Definition sub_table (city : string) (df0 : list WorkRow) : outcome table :=
  let df1 := filter (in_city city) df0 in
  let sum := sum_skipna (map w_Market_Cap df1) in
  match color_index (np_log10_round 1 (sum + epsilon)) with
  | Raise e => Raise e
  | Ok i =>
      match palette_get Sunset8 i with
      | Raise e => Raise e
      | Ok c_col => Ok (SubTable (map (sub_row_of c_col) df1))
      end
  end.

Definition create_df (year : Z) (city : string) (market_cap_lower : Q)
    (main : bool) : M table :=
  src <- read_source us_company_map ;;
  cols <- lift (project year src) ;;
  df0 <- alloc (Work cols) ;;
  loc_set_nan df0 market_cap_lower ;;;
  rows <- read_work df0 ;;
  if main then lift (main_table rows) else lift (sub_table city rows).

(** *** Formatting *)

Definition str (z : Z) : string := NilZero.string_of_int (Z.to_int z).

Definition year_label (year : Z) : string := "Year: " ++ str year.

Definition subplot_title (city : string) (year : Z) : string :=
  "Companies in " ++ city ++ " (" ++ str year ++ ")".

Definition Play : string := "► Play".
Definition Pause : string := "❚❚ Pause".

(** *** Task 3: interaction *)

Definition table_City (t : table) : list string :=
  match t with
  | MainTable rows => map (fun r => g_City (agg_group r)) rows
  | SubTable rows => map (fun r => w_City (sub_row r)) rows
  end.

(** [df.iloc[i]['City']] *)
Definition iloc_City (t : table) (i : nat) : outcome string :=
  match nth_error (table_City t) i with
  | Some c => Ok c
  | None => Raise IndexError
  end.

Definition tap_update (new : list nat) : M unit :=
  match new with
  | [] => ret tt
  | i :: _ =>
      df <- gets main_df ;;
      c <- lift (iloc_City df i) ;;
      modify (set_city c) ;;;
      y <- gets year ;;
      v <- gets market_cap_lower ;;
      sub_df <- create_df y c v false ;;
      modify (set_sub_source sub_df) ;;;
      modify (set_sub_source sub_df) ;;;
      modify (set_title_text (subplot_title c y))
  end.

Definition slider_update (new : Q) : M unit :=
  modify (set_market_cap_lower new) ;;;
  y <- gets year ;;
  c <- gets city ;;
  main_df <- create_df y c new true ;;
  modify (set_main_source main_df) ;;;
  sub_df <- create_df y c new false ;;
  modify (set_sub_source sub_df) ;;;
  modify (set_sub_source sub_df).

(** *** Task 4: animation *)

(** Lines 446-447: back to the first year once past the last. *)
Definition wrap_year (y : Z) : Z := if Y_max <? y then Y_min else y.

Definition update_year : M unit :=
  y0 <- gets year ;;
  modify (set_year (wrap_year (y0 + 1))) ;;;
  y <- gets year ;;
  modify (set_label_text (year_label y)) ;;;
  c <- gets city ;;
  v <- gets market_cap_lower ;;
  main_df <- create_df y c v true ;;
  modify (set_main_source main_df) ;;;
  sub_df <- create_df y c v false ;;
  modify (set_sub_source sub_df) ;;;
  modify (set_sub_source sub_df) ;;;
  modify (set_title_text (subplot_title c y)).

(** [curdoc().add_periodic_callback(update_year, 1000)]: the document
    registers a new callback object and returns it. *)
Definition add_periodic_callback : M nat :=
  fun s =>
    let h := next_callback s in
    (Ok h, set_session_callbacks (session_callbacks s ++ [h]) (S h) s).

(** [curdoc().remove_periodic_callback(cb)]: [ValueError] when the
    document does not hold [cb], [None] included. *)
Definition remove_periodic_callback (cb : option nat) : M unit :=
  fun s =>
    match cb with
    | Some h =>
        if existsb (Nat.eqb h) (session_callbacks s)
        then (Ok tt, set_session_callbacks
                       (filter (fun k => negb (Nat.eqb h k)) (session_callbacks s))
                       (next_callback s) s)
        else (Raise ValueError, s)
    | None => (Raise ValueError, s)
    end.

Definition play : M unit :=
  l <- gets btn_label ;;
  if String.eqb l Play then
    modify (set_btn_label Pause) ;;;
    h <- add_periodic_callback ;;
    modify (set_callback (Some h))
  else
    modify (set_btn_label Play) ;;;
    cb <- gets callback ;;
    remove_periodic_callback cb ;;;
    modify (set_callback None).

(** *** Start-up *)

(** The state the script leaves when it has run to its last line on the
    loaded table, or the exception that stopped it. *)
Definition blank (t : SourceTable) : state :=
  {| frames := [Source t]; year := 2022; city := "San Jose";
     market_cap_lower := 0%Q; main_df := MainTable [];
     main_source := MainTable []; sub_source := SubTable [];
     label_text := ""; title_text := "";
     btn_label := Play; callback := None;
     session_callbacks := []; next_callback := 0%nat |}.

Definition startup : M unit :=
  y <- gets year ;;
  c <- gets city ;;
  v <- gets market_cap_lower ;;
  main <- create_df y c v true ;;
  modify (set_main_df main) ;;;
  sub <- create_df y c v false ;;
  modify (set_main_source main) ;;;
  modify (set_label_text (year_label y)) ;;;
  c1 <- lift (iloc_City sub 0) ;;
  modify (set_sub_source sub) ;;;
  modify (set_title_text (subplot_title c1 y)).

Definition load (t : SourceTable) : outcome state :=
  match startup (blank t) with
  | (Ok _, s) => Ok s
  | (Raise e, _) => Raise e
  end.

(** *** Events *)

(** What the runtime delivers: a tap with the selected indices, a slider
    value, a firing of the periodic callback, a click on the button. *)
Inductive event : Type :=
| Tap (new : list nat)
| Slide (new : Q)
| Tick
| Click.

Definition handle (ev : event) : M unit :=
  match ev with
  | Tap new => tap_update new
  | Slide new => slider_update new
  | Tick => update_year
  | Click => play
  end.

(** The state after a callback, whether it returned or raised. *)
Definition after (ev : event) (s : state) : state := snd (handle ev s).

Definition completes (ev : event) (s : state) : Prop :=
  fst (handle ev s) = Ok tt.

Definition run (evs : list event) (s : state) : state :=
  fold_left (fun st ev => after ev st) evs s.

(** The value a computation returns from a state. *)
Definition value {A : Type} (m : M A) (s : state) : outcome A := fst (m s).

(** *** What the properties speak about *)

(** The object the global [us_company_map] refers to. *)
Definition source (s : state) : option DataFrame :=
  nth_error (frames s) us_company_map.

Definition loaded (t : SourceTable) (s : state) : Prop :=
  source s = Some (Source t).

(** The table [create_df] returns, as a function of the loaded table
    (lemma [create_df_run] relates the two). *)
Definition derived (t : SourceTable) (year : Z) (city : string)
    (market_cap_lower : Q) (main : bool) : outcome table :=
  match project year t with
  | Raise e => Raise e
  | Ok rows =>
      let df0 := map (mask_row market_cap_lower) rows in
      if main then main_table df0 else sub_table city df0
  end.

(** Both panels show the tables of the current view parameters. *)
Definition consistent (s : state) : Prop :=
  value (create_df (year s) (city s) (market_cap_lower s) true) s
    = Ok (main_source s) /\
  value (create_df (year s) (city s) (market_cap_lower s) false) s
    = Ok (sub_source s).

(** The button label, the handle and the callbacks of the document. *)
Definition animation (s : state) : string * option nat * list nat :=
  (btn_label s, callback s, session_callbacks s).

(** The two states of the animation. *)
Definition stopped (s : state) : Prop :=
  btn_label s = Play /\ callback s = None /\ session_callbacks s = [].

Definition running (s : state) : Prop :=
  exists h, btn_label s = Pause /\ callback s = Some h /\
            session_callbacks s = [h].

Definition table_rows (t : table) : nat :=
  match t with
  | MainTable rows => List.length rows
  | SubTable rows => List.length rows
  end.

(** City, summed market cap, summed employees and company count of each
    row of a main table. *)
Definition summary (t : table) : list (string * Q * Q * nat) :=
  match t with
  | MainTable rows =>
      map (fun r => let g := agg_group r in
                    (g_City g, g_Market_Cap g, g_Employees g, g_Symbol g)) rows
  | SubTable _ => []
  end.

(** The rows of a table of the subplot, without the derived columns. *)
Definition detail_rows (t : table) : list WorkRow :=
  match t with
  | MainTable _ => []
  | SubTable rows => map sub_row rows
  end.

(** What [play] leaves alone: the store, the view parameters, the panels. *)
Definition view (s : state) :=
  (frames s, year s, city s, market_cap_lower s, main_df s, main_source s,
   sub_source s).

(** The cities in the order [groupby] puts them. *)
Definition cities (t : SourceTable) : list string :=
  fold_right insert_key [] (map src_City (source_rows t)).

(** On every state the events lead to, the global [main_df] and the data
    source of the main plot list the cities in that order. *)
Definition ordered (t : SourceTable) (s : state) : Prop :=
  loaded t s /\ table_City (main_df s) = cities t /\
  table_City (main_source s) = cities t.

(** The colours of the rows of a table, in row order. *)
Definition table_colors (t : table) : list color :=
  match t with
  | MainTable rows => map agg_c_col rows
  | SubTable rows => map sub_c_col rows
  end.

(** Every callback of a sequence returns. *)
Fixpoint completes_all (evs : list event) (s : state) : Prop :=
  match evs with
  | [] => True
  | ev :: rest => completes ev s /\ completes_all rest (after ev s)
  end.

End Script.
End Dashboard.

(** ** Sample tables *)

Module Samples.

Local Open Scope string_scope.

Definition sunset : palette :=
  {| c0 := "s0"; c1 := "s1"; c2 := "s2"; c3 := "s3";
     c4 := "s4"; c5 := "s5"; c6 := "s6"; c7 := "s7" |}.

(** A stand-in for [np.log1p], exact at 0 only. *)
Definition log1p0 (q : Q) : option Q :=
  if Qltb (-1) q then Some q else None.

Definition company (symbol city : string) (cap employees : Q) : SourceRow :=
  {| src_Symbol := Some symbol; src_City := city;
     src_x := Some 0%Q; src_y := Some 0%Q;
     src_Market_Cap := fun _ => Some cap;
     src_Employees := fun _ => Some employees |}.

Definition years : list Z := [2019; 2020; 2021; 2022].

(** CityA with market caps 10 and 30, CityB with 5. *)
Definition two_cities : SourceTable :=
  {| year_columns := years;
     source_rows := [ company "AAA" "CityA" 10 100;
                      company "BBB" "CityB" 5 50;
                      company "CCC" "CityA" 30 300 ] |}.

(** Two cities, the start-up city among them. *)
Definition bay : SourceTable :=
  {| year_columns := years;
     source_rows := [ company "SJ1" "San Jose" 10 100;
                      company "AU1" "Austin" 5 50;
                      company "SJ2" "San Jose" 30 300 ] |}.



(** A table in which one company has no market cap on record. *)
Definition gappy : SourceTable :=
  {| year_columns := years;
     source_rows := [ company "SJ1" "San Jose" 10 100;
                      {| src_Symbol := Some "SJ2"; src_City := "San Jose";
                         src_x := Some 0%Q; src_y := Some 0%Q;
                         src_Market_Cap := fun _ => None;
                         src_Employees := fun _ => Some 7%Q |} ] |}.

(** The state the script starts the server with on [bay]. *)
Definition bay_start : state :=
  Eval vm_compute in
    match Dashboard.load sunset log1p0 bay with
    | Ok s => s
    | Raise _ => Dashboard.blank bay
    end.

(** The rows of the main table of [two_cities] for 2020, no lower bound. *)
Definition two_cities_rows : list AggRow :=
  Eval vm_compute in
    match Dashboard.value
            (Dashboard.create_df sunset log1p0 2020 "CityA" 0 true)
            (Dashboard.blank two_cities) with
    | Ok (MainTable rows) => rows
    | _ => []
    end.

End Samples.

(** ** Task 2: the ranges of the two plots *)

Module Plots.

(** [Series.min()] and [Series.max()], [nan] skipped; [nan] when nothing
    is left. *)
Definition col_min (l : list (option Q)) : option Q :=
  fold_right
    (fun c acc =>
       match c, acc with
       | None, _ => acc
       | Some q, None => Some q
       | Some q, Some m => Some (if Qle_bool q m then q else m)
       end)
    None l.

Definition col_max (l : list (option Q)) : option Q :=
  fold_right
    (fun c acc =>
       match c, acc with
       | None, _ => acc
       | Some q, None => Some q
       | Some q, Some m => Some (if Qle_bool m q then q else m)
       end)
    None l.

(** [Range1d(start=..., end=...)]; a bound computed from [nan] is [nan]. *)
Record Range1d : Type := {
  range_start : option Q;
  range_end : option Q
}.

Definition table_x (t : table) : list (option Q) :=
  match t with
  | MainTable rows => map (fun r => g_x (agg_group r)) rows
  | SubTable rows => map (fun r => w_x (sub_row r)) rows
  end.

Definition table_y (t : table) : list (option Q) :=
  match t with
  | MainTable rows => map (fun r => g_y (agg_group r)) rows
  | SubTable rows => map (fun r => w_y (sub_row r)) rows
  end.

(** The margin of [plot_city], 200 km in metres. *)
Definition margin : Q := 200000.

Definition widened (col : list (option Q)) : Range1d :=
  {| range_start := option_map (fun m => m - margin)%Q (col_min col);
     range_end := option_map (fun m => m + margin)%Q (col_max col) |}.

(** [x_range] and [y_range] of [plot_city]. *)
Definition plot_city_ranges (main_df : table) : Range1d * Range1d :=
  (widened (table_x main_df), widened (table_y main_df)).

Definition scaled (col : list (option Q)) : Range1d :=
  {| range_start := option_map (fun m => m * (99 # 100))%Q (col_min col);
     range_end := option_map (fun m => m * (11 # 10))%Q (col_max col) |}.

(** [x_range] (employees) and [y_range] (market cap) of [plot_company],
    from the columns of the year the script starts with; [KeyError]
    without them. *)
Definition plot_company_ranges (t : SourceTable) (year : Z)
  : outcome (Range1d * Range1d) :=
  if existsb (Z.eqb year) (year_columns t)
  then Ok (scaled (map (fun r => src_Employees r year) (source_rows t)),
           scaled (map (fun r => src_Market_Cap r year) (source_rows t)))
  else Raise KeyError.

End Plots.

(** ** Further views of the state and the tables *)

Module Views.

(** Everything of a state but the object store. *)
Definition face (s : state) :=
  (year s, city s, market_cap_lower s, main_df s, main_source s,
   sub_source s, label_text s, title_text s, btn_label s, callback s,
   session_callbacks s, next_callback s).


(** City and company count of each row of a main table. *)
Definition counts (t : table) : list (string * nat) :=
  match t with
  | MainTable rows =>
      map (fun r => (g_City (agg_group r), g_Symbol (agg_group r))) rows
  | SubTable _ => []
  end.

(** The summed market cap of the rows a table of the subplot shows. *)
Definition detail_total (t : table) : Q :=
  match t with
  | MainTable _ => 0%Q
  | SubTable rows => sum_skipna (map (fun r => w_Market_Cap (sub_row r)) rows)
  end.

(** What a tap leaves alone. *)
Definition beside_tap (s : state) :=
  (year s, market_cap_lower s, main_df s, main_source s, label_text s,
   btn_label s, callback s, session_callbacks s, next_callback s).

(** What a slider change leaves alone. *)
Definition beside_slider (s : state) :=
  (year s, city s, main_df s, label_text s, title_text s,
   btn_label s, callback s, session_callbacks s, next_callback s).

(** What a firing of the periodic callback leaves alone. *)
Definition beside_tick (s : state) :=
  (city s, market_cap_lower s, main_df s,
   btn_label s, callback s, session_callbacks s, next_callback s).

(** What a click on the button leaves alone. *)
Definition beside_click (s : state) :=
  (frames s, year s, city s, market_cap_lower s, main_df s, main_source s,
   sub_source s, label_text s, title_text s).

(** Year and year label. *)
Definition dated (s : state) : Z * string := (year s, label_text s).

End Views.

Module MoreSamples.

Local Open Scope string_scope.

(** The rows of a projection, none when it raised. *)
Definition rows_of (o : outcome (list WorkRow)) : list WorkRow :=
  match o with Ok rows => rows | Raise _ => [] end.


(** One city whose total market cap is forty million: index 7 in the main
    plot, 8 in the subplot. *)
Definition heavy : SourceTable :=
  {| year_columns := Samples.years;
     source_rows := [ Samples.company "HVY" "San Jose" 40000000 1 ] |}.

(** A table without the columns of 2019. *)
Definition no_2019 : SourceTable :=
  {| year_columns := [2020; 2021; 2022];
     source_rows := source_rows Samples.bay |}.

(** The state the script starts the server with on [no_2019]. *)
Definition no_2019_start : state :=
  Eval vm_compute in
    match Dashboard.load Samples.sunset Samples.log1p0 no_2019 with
    | Ok s => s
    | Raise _ => Dashboard.blank no_2019
    end.

(** The state a start-up on [heavy] would leave if the subplot could be
    drawn: the table loaded, nothing pushed yet. *)
Definition heavy_blank : state := Dashboard.blank heavy.

(** The rows of the main table of [two_cities] for 2020, lower bound 20. *)
Definition two_cities_rows_20 : list AggRow :=
  Eval vm_compute in
    match Dashboard.value
            (Dashboard.create_df Samples.sunset Samples.log1p0 2020 "CityA" 20 true)
            (Dashboard.blank Samples.two_cities) with
    | Ok (MainTable rows) => rows
    | _ => []
    end.


(** The table of the subplot of [bay] for San Jose in 2020, lower bound
    20. *)
Definition bay_detail_20 : table :=
  Eval vm_compute in
    match Dashboard.value
            (Dashboard.create_df Samples.sunset Samples.log1p0 2020 "San Jose" 20 false)
            (Dashboard.blank Samples.bay) with
    | Ok U => U
    | Raise _ => SubTable []
    end.

(** The main table of [heavy] for 2022, no lower bound. *)
Definition heavy_main : table :=
  Eval vm_compute in
    match Dashboard.value
            (Dashboard.create_df Samples.sunset Samples.log1p0 2022 "San Jose" 0 true)
            (Dashboard.blank heavy) with
    | Ok T => T
    | Raise _ => MainTable []
    end.

End MoreSamples.

(** ** Order of the group keys *)

Module Keys.

(** Each key is strictly below the next, in the order [groupby] sorts
    by. *)
Fixpoint increasing (l : list string) : Prop :=
  match l with
  | [] => True
  | a :: t =>
      match t with
      | [] => True
      | b :: _ => String.compare a b = Lt
      end /\ increasing t
  end.

End Keys.
(** ** Exactness of the logarithm *)

Module Log10Facts.
Import Log10.

Lemma pow10_leb_spec k a b : pow10_leb k a b = true <-> pow10_le k a b.
Proof.
  unfold pow10_leb, pow10_le. destruct (0 <=? k); apply Z.leb_le.
Qed.

Lemma pow10_pos k : 0 <= k -> 0 < 10 ^ k.
Proof. intros. apply Z.pow_pos_nonneg; lia. Qed.

(** [pow10_le] is downward closed in the exponent. *)
Lemma pow10_le_antitone k k' a b :
  0 < a -> 0 < b -> k' <= k -> pow10_le k a b -> pow10_le k' a b.
Proof.
  intros Ha Hb Hk. unfold pow10_le.
  destruct (Z.leb_spec 0 k) as [H0|H0], (Z.leb_spec 0 k') as [H1|H1]; intros H.
  - assert (10 ^ k' <= 10 ^ k) by (apply Z.pow_le_mono_r; lia).
    pose proof (pow10_pos k' H1). nia.
  - assert (0 < 10 ^ k) by (apply pow10_pos; lia).
    assert (0 < 10 ^ (- k')) by (apply pow10_pos; lia). nia.
  - lia.
  - assert (10 ^ (- k) <= 10 ^ (- k')) by (apply Z.pow_le_mono_r; lia).
    assert (0 < 10 ^ (- k)) by (apply pow10_pos; lia). nia.
Qed.

Lemma count_up_spec fuel : forall a b,
  0 < b -> b <= a -> a < b * 10 ^ Z.of_nat fuel ->
  let m := count_up fuel a b in
  0 <= m /\ b * 10 ^ m <= a /\ a < b * 10 ^ (m + 1).
Proof.
  induction fuel as [|f IH]; intros a b Hb Hle Hlt.
  - simpl in *. lia.
  - cbn [count_up]. destruct (Z.leb_spec (10 * b) a) as [H|H].
    + assert (Hf : a < 10 * b * 10 ^ Z.of_nat f).
      { rewrite Nat2Z.inj_succ, Z.pow_succ_r in Hlt by lia. lia. }
      destruct (IH a (10 * b) ltac:(lia) H Hf) as (H0 & H1 & H2).
      cbv zeta. split; [lia|].
      replace (1 + count_up f a (10 * b)) with (Z.succ (count_up f a (10 * b))) by lia.
      rewrite Z.pow_succ_r by lia.
      replace (Z.succ (count_up f a (10 * b)) + 1)
        with (Z.succ (count_up f a (10 * b) + 1)) by lia.
      rewrite Z.pow_succ_r by lia. lia.
    + cbv zeta. simpl. lia.
Qed.

Lemma count_down_spec fuel : forall a b,
  0 < a -> a < b -> b <= a * 10 ^ (Z.of_nat fuel - 1) ->
  let k := count_down fuel a b in
  1 <= k /\ b <= a * 10 ^ k /\ a * 10 ^ (k - 1) < b.
Proof.
  induction fuel as [|f IH]; intros a b Ha Hlt Hle.
  - simpl in Hle. lia.
  - cbn [count_down]. destruct (Z.leb_spec b a) as [H|H]; [lia|].
    cbv zeta. destruct (Z.leb_spec b (10 * a)) as [H1|H1].
    + destruct f as [|f]; cbn [count_down].
      * simpl in Hle. lia.
      * destruct (Z.leb_spec b (10 * a)); [|lia]. simpl. lia.
    + assert (Hf : b <= 10 * a * 10 ^ (Z.of_nat f - 1)).
      { destruct f as [|f]; [simpl in Hle; lia|].
        replace (Z.of_nat (S (S f)) - 1) with (Z.succ (Z.of_nat (S f) - 1)) in Hle by lia.
        rewrite Z.pow_succ_r in Hle by lia. lia. }
      destruct (IH (10 * a) b ltac:(lia) H1 Hf) as (H2 & H3 & H4).
      split; [lia|].
      replace (1 + count_down f (10 * a) b)
        with (Z.succ (count_down f (10 * a) b)) by lia.
      rewrite Z.pow_succ_r by lia.
      replace (Z.succ (count_down f (10 * a) b) - 1)
        with (Z.succ (count_down f (10 * a) b - 1)) by lia.
      rewrite Z.pow_succ_r by lia. lia.
Qed.

Lemma log2_fuel a : 0 < a -> a < 10 ^ Z.of_nat (2 + Z.to_nat (Z.log2 a)).
Proof.
  intros Ha.
  pose proof (Z.log2_nonneg a) as Hn.
  destruct (Z.log2_spec a Ha) as [_ Hs].
  replace (Z.of_nat (2 + Z.to_nat (Z.log2 a))) with (Z.succ (Z.succ (Z.log2 a))) by lia.
  assert (2 ^ Z.succ (Z.log2 a) <= 10 ^ Z.succ (Z.log2 a))
    by (apply Z.pow_le_mono_l; lia).
  rewrite (Z.pow_succ_r 10 (Z.succ (Z.log2 a))) by lia. lia.
Qed.

(** [floor_log10] is the floor of the decimal logarithm. *)
Lemma floor_log10_spec a b :
  0 < a -> 0 < b ->
  pow10_le (floor_log10 a b) a b /\ ~ pow10_le (floor_log10 a b + 1) a b.
Proof.
  intros Ha Hb. unfold floor_log10.
  destruct (Z.leb_spec b a) as [H|H].
  - pose proof (log2_fuel a Ha) as Hf.
    assert (Hlt : a < b * 10 ^ Z.of_nat (2 + Z.to_nat (Z.log2 a))) by nia.
    destruct (count_up_spec _ a b Hb H Hlt) as (H0 & H1 & H2).
    unfold pow10_le.
    destruct (Z.leb_spec 0 (count_up (2 + Z.to_nat (Z.log2 a)) a b)); [|lia].
    destruct (Z.leb_spec 0 (count_up (2 + Z.to_nat (Z.log2 a)) a b + 1)); [|lia].
    split; lia.
  - pose proof (log2_fuel b Hb) as Hf.
    assert (Hle : b <= a * 10 ^ (Z.of_nat (2 + Z.to_nat (Z.log2 b)) - 1)).
    { replace (Z.of_nat (2 + Z.to_nat (Z.log2 b)) - 1)
        with (Z.succ (Z.log2 b)) by (pose proof (Z.log2_nonneg b); lia).
      destruct (Z.log2_spec b Hb) as [_ Hs].
      assert (2 ^ Z.succ (Z.log2 b) <= 10 ^ Z.succ (Z.log2 b))
        by (apply Z.pow_le_mono_l; pose proof (Z.log2_nonneg b); lia).
      nia. }
    destruct (count_down_spec _ a b Ha H Hle) as (H0 & H1 & H2).
    set (k := count_down (2 + Z.to_nat (Z.log2 b)) a b) in *.
    unfold pow10_le.
    destruct (Z.leb_spec 0 (- k)); [lia|].
    rewrite Z.opp_involutive. split; [exact H1|].
    destruct (Z.leb_spec 0 (- k + 1)) as [Hk|Hk].
    + assert (k = 1) by lia. subst k.
      replace (- count_down (2 + Z.to_nat (Z.log2 b)) a b + 1) with 0 by lia.
      simpl. lia.
    + replace (- (- k + 1)) with (k - 1) by lia. lia.
Qed.

(** The floor is the only exponent with that property. *)
Lemma floor_log10_unique a b m :
  0 < a -> 0 < b ->
  pow10_le m a b -> ~ pow10_le (m + 1) a b -> floor_log10 a b = m.
Proof.
  intros Ha Hb Hm Hm1.
  destruct (floor_log10_spec a b Ha Hb) as [Hf Hf1].
  destruct (Z.lt_trichotomy (floor_log10 a b) m) as [Hlt|[Heq|Hgt]]; [|exact Heq|].
  - exfalso. apply Hf1.
    apply (pow10_le_antitone m); auto; lia.
  - exfalso. apply Hm1.
    apply (pow10_le_antitone (floor_log10 a b)); auto; lia.
Qed.

End Log10Facts.

Module Log10Round.
Import Log10 Log10Facts.




End Log10Round.

(** ** The object store *)

Module StoreFacts.

Lemma nth_error_snoc {A : Type} (l : list A) (x : A) :
  nth_error (l ++ [x]) (List.length l) = Some x.
Proof. induction l as [|h t IH]; simpl; auto. Qed.

Lemma nth_error_snoc_old {A : Type} (l : list A) (x : A) (r : nat) :
  (r < List.length l)%nat -> nth_error (l ++ [x]) r = nth_error l r.
Proof. intros H. apply nth_error_app1. exact H. Qed.

Lemma store_at_snoc (l : list DataFrame) (x f : DataFrame) :
  store_at (List.length l) f (l ++ [x]) = l ++ [f].
Proof. induction l as [|h t IH]; simpl; [reflexivity | now rewrite IH]. Qed.

End StoreFacts.

(** ** The recomputation *)

Section Recomputation.

Variable Sunset8 : palette.
Variable log1p : Q -> option Q.

Local Abbreviation create_df := (Dashboard.create_df Sunset8 log1p).
Local Abbreviation derived := (Dashboard.derived Sunset8 log1p).
Local Abbreviation main_table := (Dashboard.main_table Sunset8 log1p).
Local Abbreviation sub_table := (Dashboard.sub_table Sunset8 log1p).
Local Abbreviation color_loop := (Dashboard.color_loop Sunset8).
Local Abbreviation source := Dashboard.source.
Local Abbreviation loaded := Dashboard.loaded.
Local Abbreviation value := Dashboard.value.

(** Running [create_df] where the table is loaded: it returns the derived
    table and leaves one more object, the masked working copy, behind. *)
Lemma create_df_run t y c v m s :
  loaded t s ->
  create_df y c v m s =
    match project y t with
    | Raise e => (Raise e, s)
    | Ok rows =>
        (derived t y c v m,
         set_frames (frames s ++ [Work (map (mask_row v) rows)]) s)
    end.
Proof.
  unfold Dashboard.loaded, Dashboard.source, Dashboard.derived. intros Hs.
  unfold Dashboard.create_df, bind, read_source, lift. rewrite Hs.
  destruct (project y t) as [rows|e]; [|reflexivity].
  unfold alloc, loc_set_nan, read_work. cbn [frames set_frames].
  rewrite StoreFacts.nth_error_snoc, StoreFacts.store_at_snoc.
  cbn [frames set_frames]. rewrite StoreFacts.nth_error_snoc.
  destruct m; reflexivity.
Qed.

(** Where no table is loaded, it raises and writes nothing. *)
Lemma create_df_unloaded y c v m s :
  (forall t, ~ loaded t s) ->
  exists e, create_df y c v m s = (Raise e, s).
Proof.
  unfold Dashboard.loaded, Dashboard.source. intros Hs.
  unfold Dashboard.create_df, bind, read_source.
  destruct (nth_error (frames s) us_company_map) as [[t|rows]|] eqn:E.
  - exfalso. apply (Hs t). reflexivity.
  - eexists; reflexivity.
  - eexists; reflexivity.
Qed.

Lemma loaded_dec s : (exists t, loaded t s) \/ (forall t, ~ loaded t s).
Proof.
  unfold Dashboard.loaded, Dashboard.source.
  destruct (nth_error (frames s) us_company_map) as [[t|rows]|].
  - left. now exists t.
  - right. intros t H. discriminate.
  - right. intros t H. discriminate.
Qed.

(** The global [us_company_map] refers to the same, unchanged object
    after [create_df]. *)
Lemma create_df_source y c v m s :
  source (snd (create_df y c v m s)) = source s.
Proof.
  destruct (loaded_dec s) as [[t Ht]|Hn].
  - rewrite (create_df_run t) by exact Ht.
    destruct (project y t); [|reflexivity].
    unfold Dashboard.source in *. cbn [snd frames set_frames].
    apply StoreFacts.nth_error_snoc_old.
    apply nth_error_Some. unfold Dashboard.loaded, Dashboard.source in Ht.
    rewrite Ht. discriminate.
  - destruct (create_df_unloaded y c v m s Hn) as [e He]. now rewrite He.
Qed.

(** Everything but the store is left alone by [create_df]. *)
Lemma create_df_frame y c v m s :
  exists fs, snd (create_df y c v m s) = set_frames fs s.
Proof.
  destruct (loaded_dec s) as [[t Ht]|Hn].
  - rewrite (create_df_run t) by exact Ht.
    destruct (project y t); cbn [snd].
    + eexists; reflexivity.
    + exists (frames s). destruct s; reflexivity.
  - destruct (create_df_unloaded y c v m s Hn) as [e He]. rewrite He.
    exists (frames s). destruct s; reflexivity.
Qed.

(** The value [create_df] returns depends on the state through the loaded
    table only. *)
Lemma create_df_value t y c v m s :
  loaded t s -> value (create_df y c v m) s = derived t y c v m.
Proof.
  intros Ht. unfold Dashboard.value. rewrite (create_df_run t) by exact Ht.
  unfold Dashboard.derived. destruct (project y t); reflexivity.
Qed.

End Recomputation.

(** ** What a computation leaves alone *)

Module Frame.

Lemma p_ret {A B} (proj : state -> A) (b : B) : preserves proj (ret b).
Proof. intros s. reflexivity. Qed.

Lemma p_lift {A B} (proj : state -> A) (o : outcome B) : preserves proj (lift o).
Proof. intros s. reflexivity. Qed.

Lemma p_gets {A B} (proj : state -> A) (f : state -> B) : preserves proj (gets f).
Proof. intros s. reflexivity. Qed.

Lemma p_modify {A} (proj : state -> A) (f : state -> state) :
  (forall s, proj (f s) = proj s) -> preserves proj (modify f).
Proof. intros H s. apply H. Qed.

Lemma p_bind {A B C} (proj : state -> A) (m : M B) (f : B -> M C) :
  preserves proj m -> (forall b, preserves proj (f b)) ->
  preserves proj (bind m f).
Proof.
  intros Hm Hf s. unfold bind. specialize (Hm s).
  destruct (m s) as [[b|e] s']; cbn [snd] in *.
  - rewrite Hf. exact Hm.
  - exact Hm.
Qed.

Lemma p_if {A B} (proj : state -> A) (b : bool) (m1 m2 : M B) :
  preserves proj m1 -> preserves proj m2 ->
  preserves proj (if b then m1 else m2).
Proof. destruct b; auto. Qed.

(** [create_df] writes to the store only. *)
Lemma p_create_df {A} (proj : state -> A) Sunset8 log1p y c v m :
  (forall fs s, proj (set_frames fs s) = proj s) ->
  preserves proj (Dashboard.create_df Sunset8 log1p y c v m).
Proof.
  intros H s. destruct (create_df_frame Sunset8 log1p y c v m s) as [fs Hfs].
  rewrite Hfs. apply H.
Qed.

Lemma p_create_df_source Sunset8 log1p y c v m :
  preserves Dashboard.source (Dashboard.create_df Sunset8 log1p y c v m).
Proof. intros s. apply create_df_source. Qed.

Lemma p_add_periodic_callback {A} (proj : state -> A) :
  (forall l n s, proj (set_session_callbacks l n s) = proj s) ->
  preserves proj Dashboard.add_periodic_callback.
Proof. intros H s. apply H. Qed.

Lemma p_remove_periodic_callback {A} (proj : state -> A) cb :
  (forall l n s, proj (set_session_callbacks l n s) = proj s) ->
  preserves proj (Dashboard.remove_periodic_callback cb).
Proof.
  intros H s. unfold Dashboard.remove_periodic_callback.
  destruct cb as [h|]; [|reflexivity].
  destruct (existsb (Nat.eqb h) (session_callbacks s)); [apply H | reflexivity].
Qed.

End Frame.

(** Decomposes a callback into its steps, each of which must leave the
    projection alone by computation. *)
Ltac frame :=
  repeat first
    [ apply Frame.p_ret
    | apply Frame.p_lift
    | apply Frame.p_gets
    | apply Frame.p_modify; intros; reflexivity
    | apply Frame.p_create_df_source
    | apply Frame.p_create_df; intros; reflexivity
    | apply Frame.p_add_periodic_callback; intros; reflexivity
    | apply Frame.p_remove_periodic_callback; intros; reflexivity
    | apply Frame.p_if
    | apply Frame.p_bind; [|intros ?] ].

Section Callbacks.

Variable Sunset8 : palette.
Variable log1p : Q -> option Q.

Local Abbreviation create_df := (Dashboard.create_df Sunset8 log1p).
Local Abbreviation derived := (Dashboard.derived Sunset8 log1p).
Local Abbreviation tap_update := (Dashboard.tap_update Sunset8 log1p).
Local Abbreviation slider_update := (Dashboard.slider_update Sunset8 log1p).
Local Abbreviation update_year := (Dashboard.update_year Sunset8 log1p).
Local Abbreviation handle := (Dashboard.handle Sunset8 log1p).
Local Abbreviation after := (Dashboard.after Sunset8 log1p).
Local Abbreviation run := (Dashboard.run Sunset8 log1p).
Local Abbreviation completes := (Dashboard.completes Sunset8 log1p).
Local Abbreviation load := (Dashboard.load Sunset8 log1p).
Local Abbreviation consistent := (Dashboard.consistent Sunset8 log1p).
Local Abbreviation source := Dashboard.source.
Local Abbreviation loaded := Dashboard.loaded.
Local Abbreviation value := Dashboard.value.
Local Abbreviation play := Dashboard.play.

Lemma tap_update_source new : preserves source (tap_update new).
Proof. destruct new; unfold Dashboard.tap_update; frame. Qed.

Lemma slider_update_source new : preserves source (slider_update new).
Proof. unfold Dashboard.slider_update; frame. Qed.

Lemma update_year_source : preserves source update_year.
Proof. unfold Dashboard.update_year; frame. Qed.

Lemma play_source : preserves source play.
Proof. unfold Dashboard.play; frame. Qed.

Lemma handle_source ev : preserves source (handle ev).
Proof.
  destruct ev; cbn [Dashboard.handle].
  - apply tap_update_source.
  - apply slider_update_source.
  - apply update_year_source.
  - apply play_source.
Qed.

Lemma run_source evs : forall s, source (run evs s) = source s.
Proof.
  induction evs as [|ev evs IH]; intros s; [reflexivity|].
  cbn [Dashboard.run fold_left]. fold (run evs (after ev s)).
  rewrite IH. apply handle_source.
Qed.

(** *** The callbacks on a loaded table, step by step *)

Lemma derived_no_column t y c v m e :
  project y t = Raise e -> derived t y c v m = Raise e.
Proof. intros H. unfold Dashboard.derived. now rewrite H. Qed.

Lemma loaded_snoc t fs x :
  nth_error fs us_company_map = Some (Source t) ->
  nth_error (fs ++ [x]) us_company_map = Some (Source t).
Proof.
  intros H. rewrite StoreFacts.nth_error_snoc_old; [exact H|].
  apply nth_error_Some. rewrite H. discriminate.
Qed.

Lemma slider_update_run t new s :
  loaded t s ->
  exists fs, nth_error fs us_company_map = Some (Source t) /\
    slider_update new s =
      match derived t (year s) (city s) new true with
      | Raise e => (Raise e, set_frames fs (set_market_cap_lower new s))
      | Ok T =>
          match derived t (year s) (city s) new false with
          | Raise e =>
              (Raise e, set_frames fs (set_main_source T (set_market_cap_lower new s)))
          | Ok U =>
              (Ok tt, set_frames fs (set_sub_source U
                        (set_main_source T (set_market_cap_lower new s))))
          end
      end.
Proof.
  intros Ht. unfold Dashboard.slider_update, bind, modify, gets.
  cbn [year city set_market_cap_lower].
  rewrite (create_df_run Sunset8 log1p t) by exact Ht.
  destruct (project (year s) t) as [rows|e] eqn:P.
  - destruct (derived t (year s) (city s) new true) as [T|e1].
    + cbn [year city market_cap_lower set_frames set_main_source].
      rewrite (create_df_run Sunset8 log1p t)
        by (apply (loaded_snoc t (frames s)); exact Ht).
      rewrite P.
      exists ((frames s ++ [Work (map (mask_row new) rows)])
                ++ [Work (map (mask_row new) rows)]).
      split; [|destruct (derived t (year s) (city s) new false); reflexivity].
      apply loaded_snoc, loaded_snoc. exact Ht.
    + eexists. split; [|reflexivity]. apply loaded_snoc. exact Ht.
  - rewrite (derived_no_column _ _ _ _ _ _ P).
    exists (frames s). split; [exact Ht | reflexivity].
Qed.

Lemma update_year_run t s :
  loaded t s ->
  let y := Dashboard.wrap_year (year s + 1) in
  let s1 := set_label_text (Dashboard.year_label y) (set_year y s) in
  exists fs, nth_error fs us_company_map = Some (Source t) /\
    update_year s =
      match derived t y (city s) (market_cap_lower s) true with
      | Raise e => (Raise e, set_frames fs s1)
      | Ok T =>
          match derived t y (city s) (market_cap_lower s) false with
          | Raise e => (Raise e, set_frames fs (set_main_source T s1))
          | Ok U =>
              (Ok tt, set_frames fs
                        (set_title_text (Dashboard.subplot_title (city s) y)
                           (set_sub_source U (set_main_source T s1))))
          end
      end.
Proof.
  intros Ht y s1. unfold Dashboard.update_year, bind, modify, gets.
  cbn [year city market_cap_lower set_year set_label_text]. fold y.
  rewrite (create_df_run Sunset8 log1p t) by exact Ht.
  destruct (project y t) as [rows|e] eqn:P.
  - destruct (derived t y (city s) (market_cap_lower s) true) as [T|e1].
    + cbn [year city market_cap_lower set_frames set_main_source].
      rewrite (create_df_run Sunset8 log1p t)
        by (apply (loaded_snoc t (frames s)); exact Ht).
      rewrite P.
      exists ((frames s ++ [Work (map (mask_row (market_cap_lower s)) rows)])
                ++ [Work (map (mask_row (market_cap_lower s)) rows)]).
      split;
        [|destruct (derived t y (city s) (market_cap_lower s) false); reflexivity].
      apply loaded_snoc, loaded_snoc. exact Ht.
    + eexists. split; [|reflexivity]. apply loaded_snoc. exact Ht.
  - rewrite (derived_no_column _ _ _ _ _ _ P).
    exists (frames s). split; [exact Ht | reflexivity].
Qed.

Lemma tap_update_run t i rest s :
  loaded t s ->
  exists fs, nth_error fs us_company_map = Some (Source t) /\
    tap_update (i :: rest) s =
      match Dashboard.iloc_City (main_df s) i with
      | Raise e => (Raise e, s)
      | Ok c =>
          match derived t (year s) c (market_cap_lower s) false with
          | Raise e => (Raise e, set_frames fs (set_city c s))
          | Ok U =>
              (Ok tt, set_frames fs
                        (set_title_text (Dashboard.subplot_title c (year s))
                           (set_sub_source U (set_city c s))))
          end
      end.
Proof.
  intros Ht. unfold Dashboard.tap_update, bind, modify, gets, lift.
  destruct (Dashboard.iloc_City (main_df s) i) as [c|e].
  - cbn [year city market_cap_lower set_city].
    rewrite (create_df_run Sunset8 log1p t) by exact Ht.
    destruct (project (year s) t) as [rows|e] eqn:P.
    + exists (frames s ++ [Work (map (mask_row (market_cap_lower s)) rows)]).
      split;
        [|destruct (derived t (year s) c (market_cap_lower s) false); reflexivity].
      apply loaded_snoc. exact Ht.
    + rewrite (derived_no_column _ _ _ _ _ _ P).
      exists (frames s). split; [exact Ht | reflexivity].
  - exists (frames s). split; [exact Ht | reflexivity].
Qed.

End Callbacks.

(** ** Masking and grouping *)

Module TableFacts.

Lemma mask_row_City v r : w_City (mask_row v r) = w_City r.
Proof. unfold mask_row. destruct (below v r); reflexivity. Qed.

Lemma mask_row_x v r : w_x (mask_row v r) = w_x r.
Proof. unfold mask_row. destruct (below v r); reflexivity. Qed.

Lemma mask_row_y v r : w_y (mask_row v r) = w_y r.
Proof. unfold mask_row. destruct (below v r); reflexivity. Qed.

Lemma mask_row_below v r :
  below v r = true ->
  w_Symbol (mask_row v r) = None /\ w_Market_Cap (mask_row v r) = None /\
  w_Employees (mask_row v r) = None.
Proof. intros H. unfold mask_row. rewrite H. auto. Qed.

Lemma mask_row_kept v r : below v r = false -> mask_row v r = r.
Proof. intros H. unfold mask_row. now rewrite H. Qed.

Lemma map_City_mask v rows :
  map w_City (map (mask_row v) rows) = map w_City rows.
Proof.
  rewrite map_map. apply map_ext. intros r. apply mask_row_City.
Qed.

Lemma group_keys_mask v rows :
  group_keys (map (mask_row v) rows) = group_keys rows.
Proof. unfold group_keys. now rewrite map_City_mask. Qed.

Lemma filter_city_mask v k rows :
  filter (in_city k) (map (mask_row v) rows)
  = map (mask_row v) (filter (in_city k) rows).
Proof.
  induction rows as [|r rows IH]; [reflexivity|]. cbn [map filter].
  replace (in_city k (mask_row v r)) with (in_city k r)
    by (unfold in_city; now rewrite mask_row_City).
  destruct (in_city k r); cbn [map]; now rewrite IH.
Qed.

(** A nulled row adds nothing to a sum: the masked column sums to the sum
    over the rows that were not nulled. *)
Lemma sum_masked (col : WorkRow -> option Q) v rows :
  (forall r, below v r = true -> col (mask_row v r) = None) ->
  sum_skipna (map col (map (mask_row v) rows))
  = sum_skipna (map col (filter (qualifying v) rows)).
Proof.
  intros Hcol. induction rows as [|r rows IH]; [reflexivity|].
  cbn [map filter]. unfold qualifying at 1.
  destruct (below v r) eqn:B; cbn [negb].
  - unfold sum_skipna at 1. cbn [fold_right]. rewrite (Hcol r B).
    exact IH.
  - rewrite (mask_row_kept v r B). unfold sum_skipna in *. cbn [map fold_right].
    now rewrite IH.
Qed.

(** A nulled row is not counted. *)
Lemma count_masked v rows :
  count_notna (map w_Symbol (map (mask_row v) rows))
  = count_notna (map w_Symbol (filter (qualifying v) rows)).
Proof.
  induction rows as [|r rows IH]; [reflexivity|].
  cbn [map filter]. unfold qualifying at 1.
  destruct (below v r) eqn:B; cbn [negb].
  - unfold count_notna in *. cbn [filter].
    destruct (mask_row_below v r B) as (-> & _ & _). exact IH.
  - rewrite (mask_row_kept v r B). unfold count_notna in *. cbn [map filter].
    destruct (w_Symbol r); cbn [List.length]; now rewrite IH.
Qed.

(** The aggregate of a city over the masked copy, read on the rows of the
    unmasked projection. *)
Lemma agg_masked v rows k :
  let members := filter (qualifying v) (filter (in_city k) rows) in
  let g := agg (map (mask_row v) rows) k in
  g_City g = k /\
  g_Market_Cap g = sum_skipna (map w_Market_Cap members) /\
  g_Employees g = sum_skipna (map w_Employees members) /\
  g_Symbol g = count_notna (map w_Symbol members).
Proof.
  cbv zeta. unfold agg. cbv zeta. cbn [g_City g_Market_Cap g_Employees g_Symbol].
  rewrite filter_city_mask. repeat split.
  - apply sum_masked. intros r B. now destruct (mask_row_below v r B) as (_ & ? & _).
  - apply sum_masked. intros r B. now destruct (mask_row_below v r B) as (_ & _ & ?).
  - apply count_masked.
Qed.

Lemma map_fst_combine {A B : Type} (l : list A) : forall (l' : list B),
  List.length l = List.length l' -> map fst (combine l l') = l.
Proof.
  induction l as [|a l IH]; intros [|b l'] H; simpl in *; try discriminate; auto.
  f_equal. apply IH. congruence.
Qed.

Lemma project_City y t rows :
  project y t = Ok rows -> map w_City rows = map src_City (source_rows t).
Proof.
  unfold project. destruct (existsb _ _); [|discriminate].
  intros H. injection H as <-. rewrite map_map. reflexivity.
Qed.

Lemma project_length y t rows :
  project y t = Ok rows -> List.length rows = List.length (source_rows t).
Proof.
  unfold project. destruct (existsb _ _); [|discriminate].
  intros H. injection H as <-. apply length_map.
Qed.

End TableFacts.

Section Tables.

Variable Sunset8 : palette.
Variable log1p : Q -> option Q.

Local Abbreviation main_table := (Dashboard.main_table Sunset8 log1p).
Local Abbreviation sub_table := (Dashboard.sub_table Sunset8 log1p).
Local Abbreviation color_loop := (Dashboard.color_loop Sunset8).
Local Abbreviation derived := (Dashboard.derived Sunset8 log1p).

Lemma color_loop_length col : forall cs,
  color_loop col = Ok cs -> List.length cs = List.length col.
Proof.
  induction col as [|v col IH]; intros cs; cbn [Dashboard.color_loop].
  - intros H. injection H as <-. reflexivity.
  - destruct (color_index v); [|discriminate].
    destruct (palette_get Sunset8 a); [|discriminate].
    destruct (color_loop col) as [cs'|]; [|discriminate].
    intros H. injection H as <-. cbn [List.length]. f_equal. now apply IH.
Qed.



(** The groups of a main table are those of [groupby]. *)
Lemma main_table_groups df0 rows :
  main_table df0 = Ok (MainTable rows) ->
  map agg_group rows = groupby_City_agg df0.
Proof.
  unfold Dashboard.main_table.
  destruct (color_loop (map col_of (groupby_City_agg df0))) as [cs|] eqn:E;
    [|discriminate].
  intros H. injection H as <-. rewrite map_map. cbn [agg_group Dashboard.main_row].
  apply color_loop_length in E. rewrite length_map in E.
  rewrite <- (TableFacts.map_fst_combine (groupby_City_agg df0) cs) at 2
    by (symmetry; exact E).
  reflexivity.
Qed.

Lemma main_table_is_main df0 T :
  main_table df0 = Ok T -> exists rows, T = MainTable rows.
Proof.
  unfold Dashboard.main_table. destruct (color_loop _); [|discriminate].
  intros H. injection H as <-. eexists; reflexivity.
Qed.

Lemma groupby_City df0 : map g_City (groupby_City_agg df0) = group_keys df0.
Proof.
  unfold groupby_City_agg. rewrite map_map. cbn [g_City agg].
  apply map_id.
Qed.

(** The cities of a main table, in row order, are the sorted distinct
    cities of the loaded table, whatever the year and the lower bound. *)
Lemma derived_main_City t y c v T :
  derived t y c v true = Ok T ->
  Dashboard.table_City T = Dashboard.cities t.
Proof.
  unfold Dashboard.derived. destruct (project y t) as [rows|] eqn:P; [|discriminate].
  intros H. destruct (main_table_is_main _ _ H) as [rs ->].
  apply main_table_groups in H. cbn [Dashboard.table_City].
  rewrite <- (map_map agg_group g_City), H, groupby_City.
  rewrite TableFacts.group_keys_mask. unfold group_keys, Dashboard.cities.
  now rewrite (TableFacts.project_City y t rows P).
Qed.

End Tables.

(** ** The animation *)

Section Animation.

Variable Sunset8 : palette.
Variable log1p : Q -> option Q.

Local Abbreviation tap_update := (Dashboard.tap_update Sunset8 log1p).
Local Abbreviation slider_update := (Dashboard.slider_update Sunset8 log1p).
Local Abbreviation update_year := (Dashboard.update_year Sunset8 log1p).
Local Abbreviation handle := (Dashboard.handle Sunset8 log1p).
Local Abbreviation after := (Dashboard.after Sunset8 log1p).
Local Abbreviation run := (Dashboard.run Sunset8 log1p).
Local Abbreviation load := (Dashboard.load Sunset8 log1p).
Local Abbreviation startup := (Dashboard.startup Sunset8 log1p).
Local Abbreviation play := Dashboard.play.
Local Abbreviation stopped := Dashboard.stopped.
Local Abbreviation running := Dashboard.running.
Local Abbreviation Play := Dashboard.Play.
Local Abbreviation Pause := Dashboard.Pause.

Local Abbreviation animation := Dashboard.animation.

Lemma tap_update_animation new : preserves animation (tap_update new).
Proof. destruct new; unfold Dashboard.tap_update; frame. Qed.

Lemma slider_update_animation new : preserves animation (slider_update new).
Proof. unfold Dashboard.slider_update; frame. Qed.

Lemma update_year_animation : preserves animation update_year.
Proof. unfold Dashboard.update_year; frame. Qed.

Lemma startup_animation : preserves animation startup.
Proof. unfold Dashboard.startup; frame. Qed.

Lemma animation_stopped s s' :
  animation s' = animation s -> stopped s -> stopped s'.
Proof.
  unfold Dashboard.animation, Dashboard.stopped. intros H (Hl & Hc & Hs).
  injection H as -> -> ->. auto.
Qed.

Lemma animation_running s s' :
  animation s' = animation s -> running s -> running s'.
Proof.
  unfold Dashboard.animation, Dashboard.running. intros H (h & Hl & Hc & Hs).
  injection H as -> -> ->. exists h. auto.
Qed.

(** A click while stopped starts the animation. *)
Lemma play_from_stopped s :
  stopped s -> fst (play s) = Ok tt /\ running (snd (play s)).
Proof.
  intros (Hl & Hc & Hs). unfold Dashboard.play, bind, gets, modify.
  rewrite Hl.
  replace (String.eqb Dashboard.Play Dashboard.Play) with true by reflexivity.
  unfold Dashboard.add_periodic_callback. cbn.
  split; [reflexivity|]. exists (next_callback s). rewrite Hs. auto.
Qed.

(** A click while running stops it. *)
Lemma play_from_running s :
  running s -> fst (play s) = Ok tt /\ stopped (snd (play s)).
Proof.
  intros (h & Hl & Hc & Hs). unfold Dashboard.play, bind, gets, modify.
  rewrite Hl.
  replace (String.eqb Dashboard.Pause Dashboard.Play) with false by reflexivity.
  cbn [callback set_btn_label]. rewrite Hc.
  unfold Dashboard.remove_periodic_callback. cbn [session_callbacks set_btn_label].
  rewrite Hs. cbn [existsb]. rewrite Nat.eqb_refl. cbn.
  rewrite Nat.eqb_refl. cbn. unfold Dashboard.stopped. cbn. auto.
Qed.

Lemma preserved_animation (m : M unit) s :
  preserves animation m ->
  stopped s \/ running s -> stopped (snd (m s)) \/ running (snd (m s)).
Proof.
  intros Hm [H|H].
  - left. apply (animation_stopped s); [apply Hm | exact H].
  - right. apply (animation_running s); [apply Hm | exact H].
Qed.

Lemma after_animation ev s :
  stopped s \/ running s -> stopped (after ev s) \/ running (after ev s).
Proof.
  intros H. unfold Dashboard.after. destruct ev; cbn [Dashboard.handle].
  - apply preserved_animation; [apply tap_update_animation | exact H].
  - apply preserved_animation; [apply slider_update_animation | exact H].
  - apply preserved_animation; [apply update_year_animation | exact H].
  - destruct H as [H|H].
    + right. now apply play_from_stopped.
    + left. now apply play_from_running.
Qed.

Lemma run_animation evs : forall s,
  stopped s \/ running s -> stopped (run evs s) \/ running (run evs s).
Proof.
  induction evs as [|ev evs IH]; intros s H; [exact H|].
  cbn [Dashboard.run fold_left]. apply IH. now apply after_animation.
Qed.

Lemma load_state t s0 : load t = Ok s0 -> s0 = snd (startup (Dashboard.blank t)).
Proof.
  unfold Dashboard.load. destruct (startup (Dashboard.blank t)) as [[u|e] s].
  - intros H. injection H as ->. reflexivity.
  - discriminate.
Qed.

Lemma load_stopped t s0 : load t = Ok s0 -> stopped s0.
Proof.
  intros H. rewrite (load_state t s0 H).
  apply (animation_stopped (Dashboard.blank t)).
  - apply startup_animation.
  - unfold Dashboard.stopped. cbn. auto.
Qed.

(** The year a firing of the periodic callback leaves, in every state. *)
Lemma update_year_year s :
  year (snd (update_year s)) = Dashboard.wrap_year (year s + 1).
Proof.
  unfold Dashboard.update_year.
  unfold bind at 1. unfold gets at 1. unfold bind at 1. unfold modify at 1.
  match goal with
  | |- year (snd (?m ?st)) = _ =>
      assert (P : preserves year m) by frame; exact (P st)
  end.
Qed.

End Animation.

(** ** The panels and the view parameters *)

Section Panels.

Variable Sunset8 : palette.
Variable log1p : Q -> option Q.

Local Abbreviation create_df := (Dashboard.create_df Sunset8 log1p).
Local Abbreviation derived := (Dashboard.derived Sunset8 log1p).
Local Abbreviation tap_update := (Dashboard.tap_update Sunset8 log1p).
Local Abbreviation slider_update := (Dashboard.slider_update Sunset8 log1p).
Local Abbreviation update_year := (Dashboard.update_year Sunset8 log1p).
Local Abbreviation handle := (Dashboard.handle Sunset8 log1p).
Local Abbreviation after := (Dashboard.after Sunset8 log1p).
Local Abbreviation run := (Dashboard.run Sunset8 log1p).
Local Abbreviation completes := (Dashboard.completes Sunset8 log1p).
Local Abbreviation load := (Dashboard.load Sunset8 log1p).
Local Abbreviation consistent := (Dashboard.consistent Sunset8 log1p).
Local Abbreviation loaded := Dashboard.loaded.
Local Abbreviation value := Dashboard.value.
Local Abbreviation play := Dashboard.play.
Local Abbreviation table_City := Dashboard.table_City.
Local Abbreviation view := Dashboard.view.
Local Abbreviation cities := Dashboard.cities.
Local Abbreviation ordered := Dashboard.ordered.

(** The state the script starts the server with. *)
Lemma load_run t s0 :
  load t = Ok s0 ->
  exists T U,
    derived t 2022 "San Jose" 0 true = Ok T /\
    derived t 2022 "San Jose" 0 false = Ok U /\
    loaded t s0 /\ year s0 = 2022 /\ city s0 = "San Jose"%string /\
    market_cap_lower s0 = 0%Q /\
    main_df s0 = T /\ main_source s0 = T /\ sub_source s0 = U.
Proof.
  unfold Dashboard.load, Dashboard.startup, bind, gets, modify.
  cbn [year city market_cap_lower Dashboard.blank].
  assert (L : loaded t (Dashboard.blank t)) by reflexivity.
  fold (Dashboard.blank t).
  rewrite (create_df_run Sunset8 log1p t) by exact L.
  destruct (project 2022 t) as [rows|e] eqn:P; [|discriminate].
  destruct (derived t 2022 "San Jose" 0 true) as [T|e]; [|discriminate].
  cbn [frames set_frames set_main_df Dashboard.blank].
  rewrite (create_df_run Sunset8 log1p t) by reflexivity. rewrite P.
  destruct (derived t 2022 "San Jose" 0 false) as [U|e]; [|discriminate].
  unfold lift. destruct (Dashboard.iloc_City U 0) as [c1|e]; [|discriminate].
  intros H. injection H as <-. exists T, U. cbn.
  repeat split; reflexivity.
Qed.

(** The main table does not depend on the selected city. *)
Lemma derived_main_any_city t y c c' v :
  derived t y c v true = derived t y c' v true.
Proof. reflexivity. Qed.

Lemma consistent_loaded s : consistent s -> exists t, loaded t s.
Proof.
  intros [H _]. destruct (loaded_dec s) as [Ht|Hn]; [exact Ht|].
  destruct (create_df_unloaded Sunset8 log1p (year s) (city s)
              (market_cap_lower s) true s Hn) as [e He].
  unfold Dashboard.value in H. rewrite He in H. discriminate.
Qed.

(** Consistency, read on the loaded table. *)
Lemma consistent_derived t s :
  loaded t s ->
  (consistent s <->
   derived t (year s) (city s) (market_cap_lower s) true = Ok (main_source s) /\
   derived t (year s) (city s) (market_cap_lower s) false = Ok (sub_source s)).
Proof.
  intros Ht. unfold Dashboard.consistent.
  now rewrite !(create_df_value Sunset8 log1p t) by exact Ht.
Qed.


Lemma play_view : preserves view play.
Proof. unfold Dashboard.play; frame. Qed.

Lemma consistent_after ev s :
  consistent s -> completes ev s -> consistent (after ev s).
Proof.
  intros Hc Hev. destruct (consistent_loaded s Hc) as [t Ht].
  pose proof (proj1 (consistent_derived t s Ht) Hc) as [Hm Hs].
  unfold Dashboard.completes, Dashboard.after in *.
  destruct ev as [[|i rest]|new| |]; cbn [Dashboard.handle] in *.
  - exact Hc.
  - destruct (tap_update_run Sunset8 log1p t i rest s Ht) as (fs & Hfs & E).
    rewrite E in *. clear E.
    destruct (Dashboard.iloc_City (main_df s) i) as [c|e]; [|discriminate].
    destruct (derived t (year s) c (market_cap_lower s) false) as [U|e] eqn:D;
      [|discriminate].
    cbn [snd]. apply (consistent_derived t); [exact Hfs|]. cbn.
    split; [|exact D].
    rewrite (derived_main_any_city t (year s) c (city s)). exact Hm.
  - destruct (slider_update_run Sunset8 log1p t new s Ht) as (fs & Hfs & E).
    rewrite E in *. clear E.
    destruct (derived t (year s) (city s) new true) as [T|e] eqn:D1; [|discriminate].
    destruct (derived t (year s) (city s) new false) as [U|e] eqn:D2; [|discriminate].
    cbn [snd]. apply (consistent_derived t); [exact Hfs|]. cbn. auto.
  - destruct (update_year_run Sunset8 log1p t s Ht) as (fs & Hfs & E).
    cbv zeta in E. rewrite E in *. clear E.
    destruct (derived t (Dashboard.wrap_year (year s + 1)) (city s)
                (market_cap_lower s) true) as [T|e] eqn:D1; [|discriminate].
    destruct (derived t (Dashboard.wrap_year (year s + 1)) (city s)
                (market_cap_lower s) false) as [U|e] eqn:D2; [|discriminate].
    cbn [snd]. apply (consistent_derived t); [exact Hfs|]. cbn. auto.
  - pose proof (play_view s) as V. unfold Dashboard.view in V.
    injection V as Vf Vy Vc Vv _ Vm Vs.
    assert (Ht' : loaded t (snd (play s))).
    { unfold Dashboard.loaded, Dashboard.source. rewrite Vf. exact Ht. }
    apply (consistent_derived t _ Ht'). rewrite Vy, Vc, Vv, Vm, Vs. auto.
Qed.

(** *** Row order of the main table *)

Lemma load_ordered t s0 : load t = Ok s0 -> ordered t s0.
Proof.
  intros H. destruct (load_run t s0 H)
    as (T & U & HT & HU & Ht & Hy & Hc & Hv & Hd & Hm & Hs).
  unfold Dashboard.ordered. rewrite Hd, Hm.
  pose proof (derived_main_City Sunset8 log1p t _ _ _ T HT). auto.
Qed.

Lemma after_ordered t ev s : ordered t s -> ordered t (after ev s).
Proof.
  intros (Ht & Hd & Hm). unfold Dashboard.after.
  destruct ev as [[|i rest]|new| |]; cbn [Dashboard.handle].
  - unfold Dashboard.ordered. auto.
  - destruct (tap_update_run Sunset8 log1p t i rest s Ht) as (fs & Hfs & E).
    rewrite E. clear E.
    destruct (Dashboard.iloc_City (main_df s) i) as [c|e];
      [|cbn [snd]; unfold Dashboard.ordered; auto].
    destruct (derived t (year s) c (market_cap_lower s) false);
      cbn [snd]; unfold Dashboard.ordered, Dashboard.loaded, Dashboard.source; cbn; auto.
  - destruct (slider_update_run Sunset8 log1p t new s Ht) as (fs & Hfs & E).
    rewrite E. clear E.
    destruct (derived t (year s) (city s) new true) as [T|e] eqn:D1;
      [|cbn [snd]; unfold Dashboard.ordered, Dashboard.loaded, Dashboard.source; cbn; auto].
    pose proof (derived_main_City Sunset8 log1p t _ _ _ T D1) as K.
    destruct (derived t (year s) (city s) new false);
      cbn [snd]; unfold Dashboard.ordered, Dashboard.loaded, Dashboard.source; cbn; auto.
  - destruct (update_year_run Sunset8 log1p t s Ht) as (fs & Hfs & E).
    cbv zeta in E. rewrite E. clear E.
    destruct (derived t (Dashboard.wrap_year (year s + 1)) (city s)
                (market_cap_lower s) true) as [T|e] eqn:D1;
      [|cbn [snd]; unfold Dashboard.ordered, Dashboard.loaded, Dashboard.source; cbn; auto].
    pose proof (derived_main_City Sunset8 log1p t _ _ _ T D1) as K.
    destruct (derived t (Dashboard.wrap_year (year s + 1)) (city s)
                (market_cap_lower s) false);
      cbn [snd]; unfold Dashboard.ordered, Dashboard.loaded, Dashboard.source; cbn; auto.
  - pose proof (play_view s) as V. unfold Dashboard.view in V.
    injection V as Vf _ _ _ Vd Vm _.
    unfold Dashboard.ordered, Dashboard.loaded, Dashboard.source.
    rewrite Vf, Vd, Vm. auto.
Qed.

Lemma run_ordered t evs : forall s, ordered t s -> ordered t (run evs s).
Proof.
  induction evs as [|ev evs IH]; intros s H; [exact H|].
  cbn [Dashboard.run fold_left]. apply IH. now apply after_ordered.
Qed.

(** The city a tap selects, whether the callback then returns or raises. *)
Lemma tap_city t i rest s c :
  loaded t s ->
  nth_error (table_City (main_df s)) i = Some c ->
  city (after (Dashboard.Tap (i :: rest)) s) = c.
Proof.
  intros Ht Hi. unfold Dashboard.after. cbn [Dashboard.handle].
  destruct (tap_update_run Sunset8 log1p t i rest s Ht) as (fs & Hfs & E).
  rewrite E. unfold Dashboard.iloc_City. rewrite Hi.
  destruct (derived t (year s) c (market_cap_lower s) false); reflexivity.
Qed.

End Panels.

(** ** The colour bucket *)

Module BucketFacts.
Import Log10 Log10Facts Log10Round.







End BucketFacts.

(** ** The tables of a recomputation *)

Section Summaries.

Variable Sunset8 : palette.
Variable log1p : Q -> option Q.

Local Abbreviation main_table := (Dashboard.main_table Sunset8 log1p).
Local Abbreviation sub_table := (Dashboard.sub_table Sunset8 log1p).
Local Abbreviation color_loop := (Dashboard.color_loop Sunset8).
Local Abbreviation derived := (Dashboard.derived Sunset8 log1p).
Local Abbreviation summary := Dashboard.summary.
Local Abbreviation detail_rows := Dashboard.detail_rows.

Lemma derived_main_summary t y c v rows T :
  project y t = Ok rows ->
  derived t y c v true = Ok T ->
  summary T = map (group_summary v rows) (group_keys rows).
Proof.
  intros P. unfold Dashboard.derived. rewrite P. intros H.
  destruct (main_table_is_main _ _ _ _ H) as [rs ->].
  apply main_table_groups in H. cbn [Dashboard.summary].
  rewrite <- (map_map agg_group
                (fun g => (g_City g, g_Market_Cap g, g_Employees g, g_Symbol g))).
  rewrite H. unfold groupby_City_agg. rewrite TableFacts.group_keys_mask, map_map.
  apply map_ext. intros k.
  destruct (TableFacts.agg_masked v rows k) as (-> & -> & -> & ->).
  reflexivity.
Qed.

Lemma derived_sub_rows t y c v rows U :
  project y t = Ok rows ->
  derived t y c v false = Ok U ->
  detail_rows U = map (mask_row v) (filter (in_city c) rows).
Proof.
  intros P. unfold Dashboard.derived. rewrite P. unfold Dashboard.sub_table.
  destruct (color_index _); [|discriminate].
  destruct (palette_get _ _); [|discriminate].
  intros H. injection H as <-. cbn [Dashboard.detail_rows].
  rewrite map_map. cbn [sub_row Dashboard.sub_row_of]. rewrite map_id.
  apply TableFacts.filter_city_mask.
Qed.

Lemma below_spec v r :
  below v r = true <-> exists m, w_Market_Cap r = Some m /\ (m < v)%Q.
Proof.
  unfold below, Qltb. destruct (w_Market_Cap r) as [m|].
  - split.
    + intros H. exists m. split; [reflexivity|].
      apply Qlt_alt. destruct (Qcompare m v); congruence.
    + intros (m' & E & Hlt). injection E as <-.
      pose proof (proj1 (Qlt_alt m v) Hlt) as K.
      change (Qcompare m v = Lt) in K. now rewrite K.
  - split; [discriminate|]. intros (m & E & _). discriminate.
Qed.

Lemma none_qualifying v rows :
  (forall r, In r rows -> below v r = true) -> filter (qualifying v) rows = [].
Proof.
  induction rows as [|r rows IH]; intros H; [reflexivity|].
  cbn [filter]. unfold qualifying at 1. rewrite (H r (or_introl eq_refl)).
  cbn [negb]. apply IH. intros r' Hr'. apply H. now right.
Qed.

Lemma zero_bucket :
  color_index (np_log10_round 100 (0 + epsilon)) = Ok 0 /\
  color_index (np_log10_round 1 (0 + epsilon)) = Ok 0.
Proof. split; vm_compute; reflexivity. Qed.

Lemma color_loop_zero gs :
  (forall g, In g gs -> g_Market_Cap g = 0%Q) ->
  color_loop (map col_of gs) = Ok (map (fun _ => c0 Sunset8) gs).
Proof.
  induction gs as [|g gs IH]; intros H; [reflexivity|].
  cbn [map Dashboard.color_loop]. unfold col_of at 1.
  rewrite (H g (or_introl eq_refl)), (proj1 zero_bucket).
  cbn [palette_get Z.ltb Z.compare]. rewrite IH; [reflexivity|].
  intros g' Hg'. apply H. now right.
Qed.

(** With every row below the bound, the recomputation returns both tables:
    all sums and counts zero, and the rows of the city all nulled. *)
Lemma derived_all_below t y c v rows :
  project y t = Ok rows ->
  (forall r, In r rows -> below v r = true) ->
  exists T U,
    derived t y c v true = Ok T /\ derived t y c v false = Ok U /\
    summary T = map (fun k => (k, 0%Q, 0%Q, 0%nat)) (group_keys rows) /\
    detail_rows U = map (mask_row v) (filter (in_city c) rows).
Proof.
  intros P Hb.
  assert (Hm : forall k, filter (qualifying v) (filter (in_city k) rows) = []).
  { intros k. apply none_qualifying. intros r Hr.
    apply filter_In in Hr. apply Hb. tauto. }
  assert (HT : exists T, derived t y c v true = Ok T).
  { unfold Dashboard.derived. rewrite P. unfold Dashboard.main_table.
    rewrite color_loop_zero; [eexists; reflexivity|].
    intros g Hg. unfold groupby_City_agg in Hg. apply in_map_iff in Hg.
    destruct Hg as (k & <- & _).
    destruct (TableFacts.agg_masked v rows k) as (_ & -> & _). now rewrite Hm. }
  assert (HU : exists U, derived t y c v false = Ok U).
  { unfold Dashboard.derived. rewrite P. unfold Dashboard.sub_table.
    rewrite TableFacts.filter_city_mask.
    rewrite (TableFacts.sum_masked w_Market_Cap)
      by (intros r B; now destruct (TableFacts.mask_row_below v r B) as (_ & ? & _)).
    rewrite Hm. cbn [map sum_skipna fold_right].
    rewrite (proj2 zero_bucket). cbn [palette_get Z.ltb Z.compare].
    eexists; reflexivity. }
  destruct HT as [T HT], HU as [U HU]. exists T, U.
  split; [exact HT|]. split; [exact HU|]. split.
  - rewrite (derived_main_summary t y c v rows T P HT).
    apply map_ext. intros k. unfold group_summary. now rewrite Hm.
  - exact (derived_sub_rows t y c v rows U P HU).
Qed.

End Summaries.

(** * The claims *)

Section ColourBucket.

Variable Sunset8 : palette.
Variable log1p : Q -> option Q.

Local Abbreviation create_df := (Dashboard.create_df Sunset8 log1p).
Local Abbreviation derived := (Dashboard.derived Sunset8 log1p).
Local Abbreviation loaded := Dashboard.loaded.
Local Abbreviation value := Dashboard.value.



End ColourBucket.

Section Controller.

Variable Sunset8 : palette.
Variable log1p : Q -> option Q.

Local Abbreviation create_df := (Dashboard.create_df Sunset8 log1p).
Local Abbreviation derived := (Dashboard.derived Sunset8 log1p).
Local Abbreviation handle := (Dashboard.handle Sunset8 log1p).
Local Abbreviation after := (Dashboard.after Sunset8 log1p).
Local Abbreviation run := (Dashboard.run Sunset8 log1p).
Local Abbreviation completes := (Dashboard.completes Sunset8 log1p).
Local Abbreviation completes_all := (Dashboard.completes_all Sunset8 log1p).
Local Abbreviation load := (Dashboard.load Sunset8 log1p).
Local Abbreviation consistent := (Dashboard.consistent Sunset8 log1p).
Local Abbreviation source := Dashboard.source.
Local Abbreviation loaded := Dashboard.loaded.
Local Abbreviation value := Dashboard.value.
Local Abbreviation stopped := Dashboard.stopped.
Local Abbreviation running := Dashboard.running.
Local Abbreviation animation := Dashboard.animation.
Local Abbreviation table_City := Dashboard.table_City.
Local Abbreviation wrap_year := Dashboard.wrap_year.
Local Abbreviation Y_min := Dashboard.Y_min.
Local Abbreviation Y_max := Dashboard.Y_max.
Local Abbreviation Tick := Dashboard.Tick.
Local Abbreviation Click := Dashboard.Click.
Local Abbreviation Tap := Dashboard.Tap.

Lemma after_tick_year s : year (after Tick s) = wrap_year (year s + 1).
Proof. apply update_year_year. Qed.

Lemma ticks_year n : forall s,
  Y_min <= year s <= Y_max ->
  year (run (repeat Tick n) s)
  = Y_min + (year s - Y_min + Z.of_nat n) mod (Y_max - Y_min + 1).
Proof.
  unfold Dashboard.Y_min, Dashboard.Y_max.
  induction n as [|n IH]; intros s Hs.
  - cbn [repeat Dashboard.run fold_left]. rewrite Z.add_0_r, Z.mod_small; lia.
  - cbn [repeat Dashboard.run fold_left].
    fold (run (repeat Tick n) (after Tick s)).
    pose proof (after_tick_year s) as Hy.
    unfold Dashboard.wrap_year, Dashboard.Y_min, Dashboard.Y_max in Hy.
    rewrite IH.
    + rewrite Hy. destruct (Z.ltb_spec 2022 (year s + 1)).
      * assert (E : year s = 2022) by lia. rewrite E.
        replace (2022 - 2019 + Z.of_nat (S n)) with (Z.of_nat n + 1 * (2022 - 2019 + 1)) by lia.
        rewrite Z.mod_add by lia. f_equal; f_equal; try lia.
      * f_equal; f_equal; try lia.
    + rewrite Hy. destruct (Z.ltb_spec 2022 (year s + 1)); lia.
Qed.



(** C4 (amended).  A tap callback that receives an empty selection does
    nothing at all: it returns without raising and leaves the state as it
    was; the selected city stays selected and the subplot's data source
    keeps the rows it had, as many as before. *)
Theorem empty_selection_changes_nothing :
  forall s,
    handle (Tap []) s = (Ok tt, s) /\
    completes (Tap []) s /\
    city (after (Tap []) s) = city s /\
    sub_source (after (Tap []) s) = sub_source s /\
    Dashboard.table_rows (sub_source (after (Tap []) s))
    = Dashboard.table_rows (sub_source s).
Proof.
  intros s.
  assert (H : handle (Tap []) s = (Ok tt, s)) by reflexivity.
  unfold Dashboard.completes, Dashboard.after. rewrite H.
  repeat split.
Qed.


(** C8.  In every state the events lead to from the start-up, a tap on
    row [i] selects the city of row [i] of the table the main plot shows,
    and of the table [create_df] computes for the current year and lower
    bound: the global [main_df] the callback reads lists the cities in
    that same order, whatever year and slider changes came before. *)
Theorem tap_selects_city_of_current_row t s0 evs i rest c :
  load t = Ok s0 ->
  (nth_error (table_City (main_source (run evs s0))) i = Some c ->
   city (after (Tap (i :: rest)) (run evs s0)) = c) /\
  (forall T,
     value (create_df (year (run evs s0)) (city (run evs s0))
              (market_cap_lower (run evs s0)) true) (run evs s0) = Ok T ->
     nth_error (table_City T) i = Some c ->
     city (after (Tap (i :: rest)) (run evs s0)) = c).
Proof.
  intros H. pose proof (run_ordered Sunset8 log1p t evs s0 (load_ordered _ _ _ _ H))
    as (Ht & Hd & Hm).
  split.
  - intros Hi. apply (tap_city Sunset8 log1p t); [exact Ht|].
    rewrite Hd, <- Hm. exact Hi.
  - intros T HT Hi. apply (tap_city Sunset8 log1p t); [exact Ht|].
    rewrite (create_df_value Sunset8 log1p t) in HT by exact Ht.
    rewrite Hd, <- (derived_main_City Sunset8 log1p t _ _ _ T HT). exact Hi.
Qed.

(** C9.  The object [us_company_map] refers to is the same, with the same
    rows and values, after [create_df], after every callback whether it
    returns or raises, and after every sequence of callbacks.  The mask is
    written to a copy, a new object of the store, while the loaded table
    stays loaded. *)
Theorem source_table_unchanged :
  (forall y c v m s, source (snd (create_df y c v m s)) = source s) /\
  (forall ev s, source (after ev s) = source s) /\
  (forall evs s, source (run evs s) = source s) /\
  (forall t y c v m s rows,
     loaded t s -> project y t = Ok rows ->
     nth_error (frames (snd (create_df y c v m s))) (List.length (frames s))
     = Some (Work (map (mask_row v) rows)) /\
     loaded t (snd (create_df y c v m s))).
Proof.
  split; [|split; [|split]].
  - intros. apply create_df_source.
  - intros ev s. apply (handle_source Sunset8 log1p ev s).
  - intros evs s. apply run_source.
  - intros t y c v m s rows Ht P. split.
    + rewrite (create_df_run Sunset8 log1p t) by exact Ht. rewrite P.
      cbn [snd frames set_frames]. apply StoreFacts.nth_error_snoc.
    + unfold Dashboard.loaded. rewrite create_df_source. exact Ht.
Qed.

(** C10.  From the start-up on and after every sequence of events, clicks
    on the button among them, the handle [callback] is set exactly when
    the button shows the pause label and is [None] exactly when it shows
    the play label; the label [play] branches on is always one of the
    two. *)
Theorem handle_present_iff_pause_label t s0 evs :
  load t = Ok s0 ->
  (callback (run evs s0) <> None <-> btn_label (run evs s0) = Dashboard.Pause) /\
  (callback (run evs s0) = None <-> btn_label (run evs s0) = Dashboard.Play) /\
  (stopped (run evs s0) \/ running (run evs s0)).
Proof.
  intros H.
  pose proof (run_animation Sunset8 log1p evs s0
                (or_introl (load_stopped Sunset8 log1p t s0 H))) as Hs.
  split; [|split; [|exact Hs]].
  - destruct Hs as [(Hl & Hc & _)|(h & Hl & Hc & _)]; rewrite Hl, Hc.
    + split; [congruence | discriminate].
    + split; [reflexivity | discriminate].
  - destruct Hs as [(Hl & Hc & _)|(h & Hl & Hc & _)]; rewrite Hl, Hc.
    + split; reflexivity.
    + split; discriminate.
Qed.

End Controller.

Section Filtering.

Variable Sunset8 : palette.
Variable log1p : Q -> option Q.

Local Abbreviation create_df := (Dashboard.create_df Sunset8 log1p).
Local Abbreviation derived := (Dashboard.derived Sunset8 log1p).
Local Abbreviation loaded := Dashboard.loaded.
Local Abbreviation value := Dashboard.value.
Local Abbreviation summary := Dashboard.summary.
Local Abbreviation detail_rows := Dashboard.detail_rows.
Local Abbreviation cities := Dashboard.cities.

Lemma project_in y t :
  In y (year_columns t) -> exists rows, project y t = Ok rows.
Proof.
  intros H. unfold project.
  assert (E : existsb (Z.eqb y) (year_columns t) = true).
  { apply existsb_exists. exists y. split; [exact H | apply Z.eqb_refl]. }
  rewrite E. eexists; reflexivity.
Qed.

Lemma project_rows y t rows r :
  project y t = Ok rows -> In r rows ->
  exists r0, In r0 (source_rows t) /\
             w_City r = src_City r0 /\ w_Market_Cap r = src_Market_Cap r0 y.
Proof.
  unfold project. destruct (existsb _ _); [|discriminate].
  intros H. injection H as <-. intros Hin. apply in_map_iff in Hin.
  destruct Hin as (r0 & <- & Hin). exists r0. auto.
Qed.

Lemma project_city_count y t rows c :
  project y t = Ok rows ->
  List.length (filter (in_city c) rows)
  = List.length (filter (fun r => String.eqb (src_City r) c) (source_rows t)).
Proof.
  unfold project. destruct (existsb _ _); [|discriminate].
  intros H. injection H as <-.
  induction (source_rows t) as [|r l IH]; [reflexivity|].
  cbn [map filter]. unfold in_city at 1. cbn [w_City].
  destruct (String.eqb (src_City r) c); cbn [List.length]; now rewrite IH.
Qed.

(** C6 (amended).  When the lower bound is strictly greater than the
    market cap of every row of the year, none missing, the recomputation
    raises nothing and returns both tables: in the main table every city
    of the loaded table is present with sums 0 for market cap and
    employees and company count 0; the table of the subplot keeps one row
    for every row of the selected city, each with symbol, market cap and
    employees nulled. *)
Theorem floor_above_every_cap_empties_aggregates t y c v s :
  loaded t s ->
  In y (year_columns t) ->
  (forall r, In r (source_rows t) ->
     exists m, src_Market_Cap r y = Some m /\ (m < v)%Q) ->
  exists T U,
    value (create_df y c v true) s = Ok T /\
    value (create_df y c v false) s = Ok U /\
    summary T = map (fun k => (k, 0%Q, 0%Q, 0%nat)) (cities t) /\
    List.length (detail_rows U)
    = List.length (filter (fun r => String.eqb (src_City r) c) (source_rows t)) /\
    Forall (fun r => w_City r = c /\ w_Symbol r = None /\
                     w_Market_Cap r = None /\ w_Employees r = None)
           (detail_rows U).
Proof.
  intros Ht Hy Hall. destruct (project_in y t Hy) as [rows P].
  assert (Hb : forall r, In r rows -> below v r = true).
  { intros r Hr. destruct (project_rows y t rows r P Hr) as (r0 & H0 & _ & Hcap).
    destruct (Hall r0 H0) as (m & Hm & Hlt).
    apply below_spec. exists m. split; [congruence | exact Hlt]. }
  destruct (derived_all_below Sunset8 log1p t y c v rows P Hb)
    as (T & U & HT & HU & HsT & HsU).
  exists T, U. rewrite !(create_df_value Sunset8 log1p t) by exact Ht.
  split; [exact HT|]. split; [exact HU|]. split; [|split].
  - rewrite HsT. unfold group_keys, Dashboard.cities.
    now rewrite (TableFacts.project_City y t rows P).
  - rewrite HsU, length_map. apply (project_city_count y t rows c P).
  - rewrite HsU. apply Forall_forall. intros r Hr.
    apply in_map_iff in Hr. destruct Hr as (r1 & <- & Hr1).
    apply filter_In in Hr1. destruct Hr1 as [Hin Hc].
    destruct (TableFacts.mask_row_below v r1 (Hb r1 Hin)) as (H1 & H2 & H3).
    rewrite TableFacts.mask_row_City. unfold in_city in Hc.
    apply String.eqb_eq in Hc. auto.
Qed.

(** C7.  A row is masked exactly when its market cap is on record and
    below the lower bound; the mask nulls its symbol, market cap and
    employees, keeps its city and coordinates and deletes no row of the
    working copy.  In the main table each city's sums and count are those
    over its rows that were not masked: a nulled row adds nothing to a sum
    and is not counted.  With CityA at market caps 10 and 30 and CityB at
    5 in 2020, the lower bound 0 gives CityA sum 40, count 2 and CityB sum
    5, count 1; the lower bound 20 gives CityA sum 30, count 1 and CityB
    sum 0, count 0. *)
Theorem mask_nulls_and_aggregates_skip :
  (forall v r,
     (below v r = true <-> exists m, w_Market_Cap r = Some m /\ (m < v)%Q) /\
     w_City (mask_row v r) = w_City r /\
     w_x (mask_row v r) = w_x r /\ w_y (mask_row v r) = w_y r /\
     (below v r = true ->
      w_Symbol (mask_row v r) = None /\ w_Market_Cap (mask_row v r) = None /\
      w_Employees (mask_row v r) = None) /\
     (below v r = false -> mask_row v r = r)) /\
  (forall t y c v m s rows,
     loaded t s -> project y t = Ok rows ->
     nth_error (frames (snd (create_df y c v m s))) (List.length (frames s))
     = Some (Work (map (mask_row v) rows)) /\
     List.length (map (mask_row v) rows) = List.length (source_rows t)) /\
  (forall t y c v s rows T,
     loaded t s -> project y t = Ok rows ->
     value (create_df y c v true) s = Ok T ->
     summary T = map (group_summary v rows) (group_keys rows)) /\
  (forall c,
     outcome_map summary
       (value (create_df 2020 c 0 true) (Dashboard.blank Samples.two_cities))
     = Ok [("CityA"%string, 40%Q, 400%Q, 2%nat);
           ("CityB"%string, 5%Q, 50%Q, 1%nat)]) /\
  (forall c,
     outcome_map summary
       (value (create_df 2020 c 20 true) (Dashboard.blank Samples.two_cities))
     = Ok [("CityA"%string, 30%Q, 300%Q, 1%nat);
           ("CityB"%string, 0%Q, 0%Q, 0%nat)]).
Proof.
  split; [|split; [|split; [|split]]].
  - intros v r. split; [apply below_spec|].
    split; [apply TableFacts.mask_row_City|].
    split; [apply TableFacts.mask_row_x|].
    split; [apply TableFacts.mask_row_y|].
    split; [apply TableFacts.mask_row_below | apply TableFacts.mask_row_kept].
  - intros t y c v m s rows Ht P. split.
    + rewrite (create_df_run Sunset8 log1p t) by exact Ht. rewrite P.
      cbn [snd frames set_frames]. apply StoreFacts.nth_error_snoc.
    + rewrite length_map. apply (TableFacts.project_length y t rows P).
  - intros t y c v s rows T Ht P HT.
    rewrite (create_df_value Sunset8 log1p t) in HT by exact Ht.
    apply (derived_main_summary Sunset8 log1p t y c v rows T P HT).
  - intros c. vm_compute. reflexivity.
  - intros c. vm_compute. reflexivity.
Qed.

End Filtering.

(** * The claims on sample tables *)

Module OnSamples.
Import Samples.

Local Open Scope string_scope.

Local Abbreviation create_df := (Dashboard.create_df sunset log1p0).
Local Abbreviation after := (Dashboard.after sunset log1p0).
Local Abbreviation run := (Dashboard.run sunset log1p0).
Local Abbreviation completes := (Dashboard.completes sunset log1p0).
Local Abbreviation load := (Dashboard.load sunset log1p0).
Local Abbreviation consistent := (Dashboard.consistent sunset log1p0).
Local Abbreviation value := Dashboard.value.
Local Abbreviation blank := Dashboard.blank.
Local Abbreviation Tick := Dashboard.Tick.
Local Abbreviation Click := Dashboard.Click.
Local Abbreviation Tap := Dashboard.Tap.
Local Abbreviation Slide := Dashboard.Slide.

Lemma bay_loads : load bay = Ok bay_start.
Proof. vm_compute. reflexivity. Qed.






(** C4, counterexample.  After a tap on row 0 the subplot shows the one
    row of Austin; the empty selection that follows returns and the
    subplot still shows that row, where the claim has none. *)
Lemma empty_selection_counterexample :
  city (after (Tap [0%nat]) bay_start) = "Austin" /\
  Dashboard.table_rows (sub_source (after (Tap [0%nat]) bay_start)) = 1%nat /\
  completes (Tap []) (after (Tap [0%nat]) bay_start) /\
  city (after (Tap []) (after (Tap [0%nat]) bay_start)) = "Austin" /\
  Dashboard.table_rows
    (sub_source (after (Tap []) (after (Tap [0%nat]) bay_start))) = 1%nat.
Proof. repeat split; vm_compute; reflexivity. Qed.



(** C6, witness: [two_cities] in 2020 with the lower bound 31, above the
    market caps 10, 5 and 30. *)
Lemma floor_above_every_cap_empties_aggregates_witness :
  exists T U,
    value (create_df 2020 "CityA" 31 true) (blank two_cities) = Ok T /\
    value (create_df 2020 "CityA" 31 false) (blank two_cities) = Ok U /\
    Dashboard.summary T
    = map (fun k => (k, 0%Q, 0%Q, 0%nat)) (Dashboard.cities two_cities) /\
    List.length (Dashboard.detail_rows U)
    = List.length (filter (fun r => String.eqb (src_City r) "CityA")
                     (source_rows two_cities)) /\
    Forall (fun r => w_City r = "CityA" /\ w_Symbol r = None /\
                     w_Market_Cap r = None /\ w_Employees r = None)
           (Dashboard.detail_rows U).
Proof.
  apply (floor_above_every_cap_empties_aggregates sunset log1p0 two_cities 2020
           "CityA" 31 (blank two_cities)).
  - reflexivity.
  - right. left. reflexivity.
  - intros r [<-|[<-|[<-|[]]]]; eexists; split; reflexivity.
Defined.

(** C6, counterexample.  In [two_cities] the market caps of 2020 are 10, 5
    and 30.  With the lower bound 30, their maximum, CityA keeps sum 30
    and count 1, and its table of the subplot has two rows; with 31 it
    still has two rows.  In [gappy], where one company has no market cap
    on record, the lower bound 100 leaves employees 7 and count 1. *)
Lemma floor_at_max_counterexample :
  map (fun r => src_Market_Cap r 2020) (source_rows two_cities)
  = [Some 10%Q; Some 5%Q; Some 30%Q] /\
  outcome_map Dashboard.summary
    (value (create_df 2020 "CityA" 30 true) (blank two_cities))
  = Ok [("CityA", 30%Q, 300%Q, 1%nat); ("CityB", 0%Q, 0%Q, 0%nat)] /\
  outcome_map Dashboard.table_rows
    (value (create_df 2020 "CityA" 30 false) (blank two_cities)) = Ok 2%nat /\
  outcome_map Dashboard.table_rows
    (value (create_df 2020 "CityA" 31 false) (blank two_cities)) = Ok 2%nat /\
  map (fun r => src_Market_Cap r 2020) (source_rows gappy)
  = [Some 10%Q; None] /\
  outcome_map Dashboard.summary
    (value (create_df 2020 "San Jose" 100 true) (blank gappy))
  = Ok [("San Jose", 0%Q, 7%Q, 1%nat)].
Proof. repeat split; vm_compute; reflexivity. Qed.

(** C7, witness: the main table of [two_cities] for 2020 without lower
    bound, summarised group by group. *)
Lemma mask_nulls_and_aggregates_skip_witness :
  Dashboard.summary (MainTable two_cities_rows)
  = map (group_summary 0
           (match project 2020 two_cities with Ok rows => rows | Raise _ => [] end))
        (group_keys
           (match project 2020 two_cities with Ok rows => rows | Raise _ => [] end)).
Proof.
  destruct (mask_nulls_and_aggregates_skip sunset log1p0) as (_ & _ & H & _).
  apply (H two_cities 2020 "CityA" 0%Q (blank two_cities)).
  - reflexivity.
  - reflexivity.
  - vm_compute. reflexivity.
Defined.

(** C8, witness: after a slider change and a firing, row 1 of the main
    plot is San Jose, and a tap on it selects San Jose. *)
Lemma tap_selects_city_of_current_row_witness :
  city (after (Tap [1%nat]) (run [Tap [0%nat]; Slide 20; Tick] bay_start))
  = "San Jose".
Proof.
  destruct (tap_selects_city_of_current_row sunset log1p0 bay bay_start
              [Tap [0%nat]; Slide 20; Tick] 1%nat [] "San Jose" bay_loads)
    as [H _].
  apply H. vm_compute. reflexivity.
Defined.

(** C9, witness: on [two_cities] with the lower bound 20 the working copy,
    object 1 of the store, has two rows nulled, and the table stays
    loaded as it was. *)
Lemma source_table_unchanged_witness :
  nth_error
    (frames (snd (create_df 2020 "CityA" 20 true (blank two_cities)))) 1%nat
  = Some (Work (map (mask_row 20)
                  (match project 2020 two_cities with
                   | Ok rows => rows
                   | Raise _ => []
                   end))) /\
  Dashboard.loaded two_cities
    (snd (create_df 2020 "CityA" 20 true (blank two_cities))).
Proof.
  destruct (source_table_unchanged sunset log1p0) as (_ & _ & _ & H).
  apply (H two_cities 2020 "CityA" 20%Q true (blank two_cities)); reflexivity.
Defined.

(** C10, witness: the start-up on [bay], then a click, a firing and two
    more clicks. *)
Lemma handle_present_iff_pause_label_witness :
  (callback (run [Click; Tick; Click; Click] bay_start) <> None <->
   btn_label (run [Click; Tick; Click; Click] bay_start) = Dashboard.Pause) /\
  (callback (run [Click; Tick; Click; Click] bay_start) = None <->
   btn_label (run [Click; Tick; Click; Click] bay_start) = Dashboard.Play) /\
  (Dashboard.stopped (run [Click; Tick; Click; Click] bay_start) \/
   Dashboard.running (run [Click; Tick; Click; Click] bay_start)).
Proof.
  apply (handle_present_iff_pause_label sunset log1p0 bay bay_start
           [Click; Tick; Click; Click] bay_loads).
Defined.

End OnSamples.

(** * Further properties of the script *)

Section MoreRecomputation.

Variable Sunset8 : palette.
Variable log1p : Q -> option Q.

Local Abbreviation create_df := (Dashboard.create_df Sunset8 log1p).
Local Abbreviation derived := (Dashboard.derived Sunset8 log1p).
Local Abbreviation main_table := (Dashboard.main_table Sunset8 log1p).
Local Abbreviation sub_table := (Dashboard.sub_table Sunset8 log1p).
Local Abbreviation color_loop := (Dashboard.color_loop Sunset8).
Local Abbreviation handle := (Dashboard.handle Sunset8 log1p).
Local Abbreviation after := (Dashboard.after Sunset8 log1p).
Local Abbreviation run := (Dashboard.run Sunset8 log1p).
Local Abbreviation load := (Dashboard.load Sunset8 log1p).
Local Abbreviation loaded := Dashboard.loaded.
Local Abbreviation value := Dashboard.value.
Local Abbreviation detail_rows := Dashboard.detail_rows.
Local Abbreviation table_colors := Dashboard.table_colors.
Local Abbreviation table_rows := Dashboard.table_rows.
Local Abbreviation table_City := Dashboard.table_City.
Local Abbreviation cities := Dashboard.cities.
Local Abbreviation Tap := Dashboard.Tap.

Lemma project_not_in y t :
  ~ In y (year_columns t) -> project y t = Raise KeyError.
Proof.
  intros H. unfold project.
  destruct (existsb (Z.eqb y) (year_columns t)) eqn:E; [|reflexivity].
  exfalso. apply H. apply existsb_exists in E. destruct E as (z & Hz & Hyz).
  apply Z.eqb_eq in Hyz. now subst z.
Qed.

Lemma color_index_raise v e :
  color_index v = Raise e -> e = ValueError \/ e = OverflowError.
Proof.
  unfold color_index, py_int. destruct v; intros H; try discriminate.
  - injection H as <-. now right.
  - injection H as <-. now left.
Qed.

Lemma palette_get_raise p i e : palette_get p i = Raise e -> e = IndexError.
Proof.
  unfold palette_get. intros H.
  destruct (if i <? 0 then i + 8 else i) as [|q|q];
    try (do 3 (destruct q as [q|q|]; try discriminate)); congruence.
Qed.

Lemma color_loop_raise col e : color_loop col = Raise e -> e <> KeyError.
Proof.
  induction col as [|v col IH]; cbn [Dashboard.color_loop]; [discriminate|].
  destruct (color_index v) as [i|e1] eqn:Ei.
  - destruct (palette_get Sunset8 i) as [c|e2] eqn:Ec.
    + destruct (color_loop col) as [cs|e3]; [discriminate|].
      intros H. injection H as <-. now apply IH.
    + intros H. injection H as <-. rewrite (palette_get_raise _ _ _ Ec). discriminate.
  - intros H. injection H as <-.
    destruct (color_index_raise _ _ Ei) as [-> | ->]; discriminate.
Qed.

Lemma filter_none {A : Type} (f : A -> bool) (l : list A) :
  (forall x, In x l -> f x = false) -> filter f l = [].
Proof.
  induction l as [|a l IH]; intros H; [reflexivity|].
  cbn [filter]. rewrite (H a (or_introl eq_refl)). apply IH.
  intros x Hx. apply H. now right.
Qed.

(** X1.  Asked for a year the loaded table has no columns for, [create_df]
    raises [KeyError] before it has copied anything: the state, the
    object store included, is the one it was called in.  Asked for a year
    that has its columns it never raises [KeyError]. *)
Theorem create_df_missing_year t y c v m s :
  loaded t s ->
  (~ In y (year_columns t) -> create_df y c v m s = (Raise KeyError, s)) /\
  (In y (year_columns t) -> value (create_df y c v m) s <> Raise KeyError).
Proof.
  intros Ht. split.
  - intros Hy. rewrite (create_df_run Sunset8 log1p t) by exact Ht.
    now rewrite (project_not_in y t Hy).
  - intros Hy. rewrite (create_df_value Sunset8 log1p t) by exact Ht.
    destruct (project_in y t Hy) as [rows P].
    unfold Dashboard.derived. rewrite P. destruct m.
    + unfold Dashboard.main_table.
      destruct (color_loop _) as [cs|e] eqn:E; [discriminate|].
      intros H. injection H as ->. now apply (color_loop_raise _ _ E).
    + unfold Dashboard.sub_table.
      destruct (color_index _) as [i|e] eqn:Ei.
      * destruct (palette_get Sunset8 i) as [col|e] eqn:Ec; [discriminate|].
        rewrite (palette_get_raise _ _ _ Ec). discriminate.
      * destruct (color_index_raise _ _ Ei) as [-> | ->]; discriminate.
Qed.

(** X2.  For a city no row of the loaded table has, [create_df] returns
    the table of the subplot without raising, and that table has no
    row. *)
Theorem create_df_unknown_city t y c v s :
  loaded t s ->
  In y (year_columns t) ->
  (forall r, In r (source_rows t) -> src_City r <> c) ->
  value (create_df y c v false) s = Ok (SubTable []).
Proof.
  intros Ht Hy Hc. rewrite (create_df_value Sunset8 log1p t) by exact Ht.
  destruct (project_in y t Hy) as [rows P].
  unfold Dashboard.derived. rewrite P. unfold Dashboard.sub_table.
  assert (E : filter (in_city c) (map (mask_row v) rows) = []).
  { rewrite TableFacts.filter_city_mask.
    rewrite (filter_none (in_city c) rows); [reflexivity|].
    intros r Hr. destruct (project_rows y t rows r P Hr) as (r0 & H0 & Hcity & _).
    unfold in_city. apply String.eqb_neq. rewrite Hcity. now apply Hc. }
  rewrite E. cbn [map sum_skipna fold_right].
  rewrite (proj2 (zero_bucket)). reflexivity.
Qed.

End MoreRecomputation.

Section MoreCallbacks.

Variable Sunset8 : palette.
Variable log1p : Q -> option Q.

Local Abbreviation create_df := (Dashboard.create_df Sunset8 log1p).
Local Abbreviation derived := (Dashboard.derived Sunset8 log1p).
Local Abbreviation tap_update := (Dashboard.tap_update Sunset8 log1p).
Local Abbreviation slider_update := (Dashboard.slider_update Sunset8 log1p).
Local Abbreviation update_year := (Dashboard.update_year Sunset8 log1p).
Local Abbreviation handle := (Dashboard.handle Sunset8 log1p).
Local Abbreviation after := (Dashboard.after Sunset8 log1p).
Local Abbreviation run := (Dashboard.run Sunset8 log1p).
Local Abbreviation load := (Dashboard.load Sunset8 log1p).
Local Abbreviation loaded := Dashboard.loaded.
Local Abbreviation value := Dashboard.value.
Local Abbreviation detail_rows := Dashboard.detail_rows.
Local Abbreviation table_colors := Dashboard.table_colors.
Local Abbreviation table_rows := Dashboard.table_rows.
Local Abbreviation table_City := Dashboard.table_City.
Local Abbreviation cities := Dashboard.cities.
Local Abbreviation Tap := Dashboard.Tap.
Local Abbreviation Slide := Dashboard.Slide.
Local Abbreviation Tick := Dashboard.Tick.
Local Abbreviation Click := Dashboard.Click.

Lemma derived_project t y c v m T :
  derived t y c v m = Ok T -> exists rows, project y t = Ok rows.
Proof.
  unfold Dashboard.derived. destruct (project y t) as [rows|]; [|discriminate].
  intros _. now exists rows.
Qed.

Lemma project_year y t rows : project y t = Ok rows -> In y (year_columns t).
Proof.
  unfold project. destruct (existsb (Z.eqb y) (year_columns t)) eqn:E; [|discriminate].
  intros _. apply existsb_exists in E. destruct E as (z & Hz & Hyz).
  apply Z.eqb_eq in Hyz. now subst z.
Qed.

Lemma sub_table_shape t y c v rows U :
  project y t = Ok rows ->
  derived t y c v false = Ok U ->
  exists col,
    U = SubTable (map (Dashboard.sub_row_of log1p col)
                      (map (mask_row v) (filter (in_city c) rows))).
Proof.
  intros P. unfold Dashboard.derived. rewrite P. unfold Dashboard.sub_table.
  destruct (color_index _); [|discriminate].
  destruct (palette_get _ _) as [col|]; [|discriminate].
  intros H. injection H as <-. exists col.
  now rewrite TableFacts.filter_city_mask.
Qed.

(** X3.  The table of the subplot shows the rows of the selected city
    and no other, in the order of the loaded table, each masked as the
    working copy has it, and all in one colour. *)
Theorem detail_table_rows t y c v s rows U :
  loaded t s ->
  project y t = Ok rows ->
  value (create_df y c v false) s = Ok U ->
  detail_rows U = map (mask_row v) (filter (in_city c) rows) /\
  (forall r, In r (detail_rows U) -> w_City r = c) /\
  table_rows U
  = List.length (filter (fun r => String.eqb (src_City r) c) (source_rows t)) /\
  exists col, table_colors U = repeat col (table_rows U).
Proof.
  intros Ht P HU. rewrite (create_df_value Sunset8 log1p t) in HU by exact Ht.
  destruct (sub_table_shape t y c v rows U P HU) as [col ->].
  cbn [Dashboard.detail_rows Dashboard.table_colors Dashboard.table_rows].
  set (l := map (mask_row v) (filter (in_city c) rows)).
  assert (Hl : map sub_row (map (Dashboard.sub_row_of log1p col) l) = l).
  { rewrite map_map. cbn [sub_row Dashboard.sub_row_of]. apply map_id. }
  rewrite Hl. split; [reflexivity|]. split; [|split].
  - intros r Hr. subst l. apply in_map_iff in Hr. destruct Hr as (r1 & <- & Hr1).
    apply filter_In in Hr1. destruct Hr1 as [_ Hc].
    rewrite TableFacts.mask_row_City. now apply String.eqb_eq.
  - rewrite length_map. subst l. rewrite length_map.
    apply (project_city_count y t rows c P).
  - exists col. rewrite map_map. cbn [sub_c_col Dashboard.sub_row_of].
    rewrite length_map. clear. induction l as [|r l IH]; [reflexivity|].
    cbn [map List.length repeat]. now rewrite IH.
Qed.

Lemma load_captions t s0 :
  load t = Ok s0 ->
  In 2022 (year_columns t) /\
  (exists r, In r (source_rows t) /\ src_City r = "San Jose"%string) /\
  label_text s0 = "Year: 2022"%string /\
  title_text s0 = "Companies in San Jose (2022)"%string.
Proof.
  unfold Dashboard.load, Dashboard.startup, bind, gets, modify.
  cbn [year city market_cap_lower Dashboard.blank].
  assert (L : loaded t (Dashboard.blank t)) by reflexivity.
  fold (Dashboard.blank t).
  rewrite (create_df_run Sunset8 log1p t) by exact L.
  destruct (project 2022 t) as [rows|e] eqn:P; [|discriminate].
  destruct (derived t 2022 "San Jose" 0 true) as [T|e]; [|discriminate].
  cbn [frames set_frames set_main_df Dashboard.blank].
  rewrite (create_df_run Sunset8 log1p t) by reflexivity. rewrite P.
  destruct (derived t 2022 "San Jose" 0 false) as [U|e] eqn:D; [|discriminate].
  unfold lift. destruct (Dashboard.iloc_City U 0) as [c1|e] eqn:I; [|discriminate].
  intros H. injection H as <-. cbn [label_text title_text set_title_text
    set_sub_source set_label_text set_main_source set_frames set_main_df].
  destruct (sub_table_shape t 2022 "San Jose" 0 rows U P D) as [col ->].
  unfold Dashboard.iloc_City in I. cbn [Dashboard.table_City] in I.
  rewrite !map_map in I. cbn [sub_row Dashboard.sub_row_of] in I.
  destruct (filter (in_city "San Jose") rows) as [|r rest] eqn:F;
    [discriminate|].
  cbn [map nth_error] in I. injection I as <-.
  assert (Hr : In r (filter (in_city "San Jose") rows)) by (rewrite F; now left).
  apply filter_In in Hr. destruct Hr as [Hin Hc].
  unfold in_city in Hc. apply String.eqb_eq in Hc.
  destruct (project_rows 2022 t rows r P Hin) as (r0 & H0 & Hcity & _).
  rewrite TableFacts.mask_row_City, Hc.
  split; [exact (project_year 2022 t rows P)|].
  split; [exists r0; split; [exact H0 | congruence]|].
  split; reflexivity.
Qed.

(** X4.  The script gets past its start-up only on a table that has the
    columns of 2022 and at least one row of San Jose, the city it starts
    with; it then shows the year label and the subplot title of San Jose
    in 2022. *)
Theorem startup_needs_city t s0 :
  load t = Ok s0 ->
  In 2022 (year_columns t) /\
  (exists r, In r (source_rows t) /\ src_City r = "San Jose"%string) /\
  label_text s0 = "Year: 2022"%string /\
  title_text s0 = "Companies in San Jose (2022)"%string.
Proof.
  intros H. destruct (load_captions t s0 H) as (Hy & Hr & Hl & Ht).
  split; [exact Hy|]. split; [exact Hr|]. split; [exact Hl | exact Ht].
Qed.

(** X5.  In every state the events lead to from the start-up, a tap on
    an index that is not below the number of distinct cities raises
    [IndexError] and changes nothing. *)
Theorem tap_out_of_range t s0 evs i rest :
  load t = Ok s0 ->
  (List.length (cities t) <= i)%nat ->
  handle (Tap (i :: rest)) (run evs s0) = (Raise IndexError, run evs s0).
Proof.
  intros H Hi.
  pose proof (run_ordered Sunset8 log1p t evs s0 (load_ordered _ _ _ _ H))
    as (_ & Hd & _).
  cbn [Dashboard.handle]. unfold Dashboard.tap_update, bind, gets, lift.
  unfold Dashboard.iloc_City. rewrite Hd.
  now rewrite (proj2 (nth_error_None (cities t) i) Hi).
Qed.

(** X6.  What each callback never writes, whether it returns or raises:
    a tap leaves the year, the lower bound, the main plot's data source,
    the year label and the animation alone; a slider change leaves the
    year, the selected city, the year label, the subplot title and the
    animation alone; a firing of the periodic callback leaves the
    selected city, the lower bound and the animation alone; a click
    leaves the object store, the view parameters, both data sources and
    both captions alone. *)
Theorem callbacks_leave_alone :
  (forall new s, Views.beside_tap (after (Tap new) s) = Views.beside_tap s) /\
  (forall new s, Views.beside_slider (after (Slide new) s) = Views.beside_slider s) /\
  (forall s, Views.beside_tick (after Tick s) = Views.beside_tick s) /\
  (forall s, Views.beside_click (after Click s) = Views.beside_click s).
Proof.
  split; [|split; [|split]].
  - intros new s. unfold Dashboard.after. cbn [Dashboard.handle].
    assert (P : preserves Views.beside_tap (tap_update new))
      by (destruct new; unfold Dashboard.tap_update; frame).
    apply P.
  - intros new s. unfold Dashboard.after. cbn [Dashboard.handle].
    assert (P : preserves Views.beside_slider (slider_update new))
      by (unfold Dashboard.slider_update; frame).
    apply P.
  - intros s. unfold Dashboard.after. cbn [Dashboard.handle].
    assert (P : preserves Views.beside_tick update_year)
      by (unfold Dashboard.update_year; frame).
    apply P.
  - intros s. unfold Dashboard.after. cbn [Dashboard.handle].
    assert (P : preserves Views.beside_click Dashboard.play)
      by (unfold Dashboard.play; frame).
    apply P.
Qed.

End MoreCallbacks.

(** ** The rows of the main table *)

Module KeyFacts.
Import Keys.

Lemma ascii_compare_trans a b c :
  Ascii.compare a b = Lt -> Ascii.compare b c = Lt -> Ascii.compare a c = Lt.
Proof.
  unfold Ascii.compare. rewrite !N.compare_lt_iff. apply N.lt_trans.
Qed.

Lemma ascii_compare_refl a : Ascii.compare a a = Eq.
Proof. unfold Ascii.compare. apply N.compare_refl. Qed.

Lemma compare_trans : forall a b c,
  String.compare a b = Lt -> String.compare b c = Lt -> String.compare a c = Lt.
Proof.
  induction a as [|x a IH]; intros [|y b] [|z c]; cbn [String.compare];
    try discriminate; try reflexivity.
  destruct (Ascii.compare x y) eqn:Exy; try discriminate;
    destruct (Ascii.compare y z) eqn:Eyz; try discriminate; intros H1 H2.
  - apply Ascii.compare_eq_iff in Exy, Eyz. subst.
    rewrite ascii_compare_refl. now apply (IH b c).
  - apply Ascii.compare_eq_iff in Exy. subst. now rewrite Eyz.
  - apply Ascii.compare_eq_iff in Eyz. subst. now rewrite Exy.
  - now rewrite (ascii_compare_trans x y z Exy Eyz).
Qed.

Lemma compare_refl a : String.compare a a = Eq.
Proof.
  induction a as [|x a IH]; cbn [String.compare]; [reflexivity|].
  now rewrite ascii_compare_refl.
Qed.

Lemma compare_gt_lt k h : String.compare k h = Gt -> String.compare h k = Lt.
Proof. intros H. rewrite String.compare_antisym, H. reflexivity. Qed.

Lemma insert_key_In k ks x :
  In x (insert_key k ks) <-> x = k \/ In x ks.
Proof.
  induction ks as [|h t IH]; cbn [insert_key].
  - cbn [In]. intuition.
  - destruct (String.compare k h) eqn:E.
    + apply String.compare_eq_iff in E. subst h. cbn [In]. intuition.
    + cbn [In]. intuition.
    + cbn [In]. rewrite IH. intuition.
Qed.

Lemma insert_key_increasing k ks :
  increasing ks -> increasing (insert_key k ks).
Proof.
  induction ks as [|h t IH]; intros Hs; cbn [insert_key].
  - cbn. auto.
  - destruct (String.compare k h) eqn:E.
    + exact Hs.
    + cbn [increasing]. split; [exact E | exact Hs].
    + destruct Hs as [Hh Ht]. specialize (IH Ht).
      cbn [increasing]. split; [|exact IH].
      destruct t as [|h2 t2]; cbn [insert_key].
      * now apply compare_gt_lt.
      * destruct (String.compare k h2); [exact Hh | now apply compare_gt_lt | exact Hh].
Qed.

Lemma increasing_above a l :
  increasing (a :: l) -> forall x, In x l -> String.compare a x = Lt.
Proof.
  revert a. induction l as [|b l IH]; intros a [Hab Hl] x Hx; [destruct Hx|].
  destruct Hx as [<-|Hx]; [exact Hab|].
  apply (compare_trans a b x Hab). now apply IH.
Qed.

Lemma increasing_NoDup l : increasing l -> NoDup l.
Proof.
  induction l as [|a l IH]; intros Hs; [constructor|].
  constructor.
  - intros Hin. pose proof (increasing_above a l Hs a Hin) as H.
    rewrite compare_refl in H. discriminate.
  - apply IH. destruct Hs as [_ Hs]. exact Hs.
Qed.

Lemma keys_increasing l : increasing (fold_right insert_key [] l).
Proof.
  induction l as [|k l IH]; cbn [fold_right]; [exact I|].
  now apply insert_key_increasing.
Qed.

Lemma keys_In l x : In x (fold_right insert_key [] l) <-> In x l.
Proof.
  induction l as [|k l IH]; cbn [fold_right]; [reflexivity|].
  rewrite insert_key_In, IH. cbn [In]. intuition.
Qed.

End KeyFacts.

Section MainRows.

Variable Sunset8 : palette.
Variable log1p : Q -> option Q.

Local Abbreviation create_df := (Dashboard.create_df Sunset8 log1p).
Local Abbreviation derived := (Dashboard.derived Sunset8 log1p).
Local Abbreviation loaded := Dashboard.loaded.
Local Abbreviation value := Dashboard.value.
Local Abbreviation table_City := Dashboard.table_City.
Local Abbreviation table_rows := Dashboard.table_rows.
Local Abbreviation summary := Dashboard.summary.
Local Abbreviation detail_rows := Dashboard.detail_rows.

(** X7.  Whatever the year and the lower bound, the table of the main
    plot has exactly one row for each city that occurs in the loaded
    table, a city all of whose companies are masked included, and the
    rows come in strictly increasing order of the city names. *)
Theorem main_table_one_row_per_city t y c v s T :
  loaded t s ->
  value (create_df y c v true) s = Ok T ->
  Keys.increasing (table_City T) /\
  NoDup (table_City T) /\
  (forall k, In k (table_City T) <->
             exists r, In r (source_rows t) /\ src_City r = k).
Proof.
  intros Ht HT. rewrite (create_df_value Sunset8 log1p t) in HT by exact Ht.
  rewrite (derived_main_City Sunset8 log1p t y c v T HT). unfold Dashboard.cities.
  split; [apply KeyFacts.keys_increasing|].
  split; [apply KeyFacts.increasing_NoDup, KeyFacts.keys_increasing|].
  intros k. rewrite KeyFacts.keys_In, in_map_iff.
  split; intros (r & H1 & H2); exists r; auto.
Qed.

Lemma below_mono v v' r :
  (v <= v')%Q -> below v r = true -> below v' r = true.
Proof.
  intros Hv H. apply below_spec in H. destruct H as (m & E & Hlt).
  apply below_spec. exists m. split; [exact E|].
  now apply (Qlt_le_trans m v v').
Qed.

Lemma count_mono v v' rows :
  (v <= v')%Q ->
  (count_notna (map w_Symbol (filter (qualifying v') rows))
   <= count_notna (map w_Symbol (filter (qualifying v) rows)))%nat.
Proof.
  intros Hv. induction rows as [|r rows IH]; [apply Nat.le_refl|].
  cbn [filter].
  change (qualifying v r) with (negb (below v r)).
  change (qualifying v' r) with (negb (below v' r)).
  destruct (below v r) eqn:B.
  - rewrite (below_mono v v' r Hv B). cbn [negb]. exact IH.
  - cbn [negb]. destruct (below v' r); cbn [negb].
    + unfold count_notna in *. cbn [map filter].
      destruct (w_Symbol r); cbn [List.length]; lia.
    + unfold count_notna in *. cbn [map filter].
      destruct (w_Symbol r); cbn [List.length]; lia.
Qed.

Lemma counts_of_summary T :
  Views.counts T = map (fun q => (fst (fst (fst q)), snd q)) (summary T).
Proof.
  destruct T as [rows|rows]; [|reflexivity].
  cbn [Views.counts Dashboard.summary]. rewrite map_map. reflexivity.
Qed.

(** X8.  Raising the lower bound never raises a city's company count: of
    two main tables for the same year, the one for the larger bound lists
    the same cities in the same order, each with a count that is at most
    the other's. *)
Theorem raising_the_bound_lowers_counts t y c v v' s T T' :
  loaded t s ->
  (v <= v')%Q ->
  value (create_df y c v true) s = Ok T ->
  value (create_df y c v' true) s = Ok T' ->
  Forall2 (fun a b => fst a = fst b /\ (snd b <= snd a)%nat)
          (Views.counts T) (Views.counts T').
Proof.
  intros Ht Hv HT HT'.
  rewrite (create_df_value Sunset8 log1p t) in HT, HT' by exact Ht.
  destruct (derived_project Sunset8 log1p t y c v true T HT) as [rows P].
  rewrite !counts_of_summary.
  rewrite (derived_main_summary Sunset8 log1p t y c v rows T P HT).
  rewrite (derived_main_summary Sunset8 log1p t y c v' rows T' P HT').
  rewrite !map_map. unfold group_summary. cbn [fst snd].
  induction (group_keys rows) as [|k ks IH]; cbn [map]; constructor; [|exact IH].
  cbn [fst snd]. split; [reflexivity|]. now apply count_mono.
Qed.

Lemma mask_nothing v rows :
  (forall r, In r rows -> below v r = false) -> map (mask_row v) rows = rows.
Proof.
  induction rows as [|r rows IH]; intros H; [reflexivity|].
  cbn [map]. rewrite (TableFacts.mask_row_kept v r (H r (or_introl eq_refl))).
  f_equal. apply IH. intros r' Hr'. apply H. now right.
Qed.

(** X9.  A lower bound that no market cap on record for the year lies
    below masks nothing: the working copy is the projection of the loaded
    table as it is, and the table of the subplot shows the rows of the
    city with every cell they have in the loaded table. *)
Theorem bound_below_every_cap_masks_nothing t y c v m s rows :
  loaded t s ->
  project y t = Ok rows ->
  (forall r q, In r (source_rows t) -> src_Market_Cap r y = Some q -> (v <= q)%Q) ->
  nth_error (frames (snd (create_df y c v m s))) (List.length (frames s))
  = Some (Work rows) /\
  (forall U, value (create_df y c v false) s = Ok U ->
             detail_rows U = filter (in_city c) rows).
Proof.
  intros Ht P Hall.
  assert (Hb : forall r, In r rows -> below v r = false).
  { intros r Hr. destruct (project_rows y t rows r P Hr) as (r0 & H0 & _ & Hcap).
    destruct (below v r) eqn:B; [|reflexivity]. exfalso.
    apply below_spec in B. destruct B as (q & E & Hlt).
    apply (Qlt_not_le q v Hlt). apply (Hall r0 q H0). congruence. }
  split.
  - rewrite (create_df_run Sunset8 log1p t) by exact Ht. rewrite P.
    cbn [snd frames set_frames]. rewrite (mask_nothing v rows Hb).
    apply StoreFacts.nth_error_snoc.
  - intros U HU. rewrite (create_df_value Sunset8 log1p t) in HU by exact Ht.
    rewrite (derived_sub_rows Sunset8 log1p t y c v rows U P HU).
    apply mask_nothing. intros r Hr. apply Hb. apply filter_In in Hr. tauto.
Qed.

End MainRows.

(** ** The colour of the subplot *)

Module SubBucketFacts.
Import Log10 Log10Facts Log10Round.





End SubBucketFacts.

Section SubColour.

Variable Sunset8 : palette.
Variable log1p : Q -> option Q.

Local Abbreviation create_df := (Dashboard.create_df Sunset8 log1p).
Local Abbreviation derived := (Dashboard.derived Sunset8 log1p).
Local Abbreviation handle := (Dashboard.handle Sunset8 log1p).
Local Abbreviation after := (Dashboard.after Sunset8 log1p).
Local Abbreviation loaded := Dashboard.loaded.
Local Abbreviation value := Dashboard.value.
Local Abbreviation table_colors := Dashboard.table_colors.
Local Abbreviation Slide := Dashboard.Slide.
Local Abbreviation Tick := Dashboard.Tick.

(** The summed market cap of a city over the masked working copy. *)
Lemma city_total rows k :
  g_Market_Cap (agg rows k)
  = sum_skipna (map w_Market_Cap (filter (in_city k) rows)).
Proof. reflexivity. Qed.




(** X12.  A slider change or a firing of the periodic callback can stop
    half-way: when the main table is computed and the table of the
    subplot raises, the callback raises with the main plot already showing
    the new table and the subplot still showing the old one, the lower
    bound (the year) already changed. *)
Theorem callback_can_stop_half_way t s :
  loaded t s ->
  (forall v T e,
     value (create_df (year s) (city s) v true) s = Ok T ->
     value (create_df (year s) (city s) v false) s = Raise e ->
     fst (handle (Slide v) s) = Raise e /\
     market_cap_lower (after (Slide v) s) = v /\
     main_source (after (Slide v) s) = T /\
     sub_source (after (Slide v) s) = sub_source s) /\
  (forall T e,
     value (create_df (Dashboard.wrap_year (year s + 1)) (city s)
              (market_cap_lower s) true) s = Ok T ->
     value (create_df (Dashboard.wrap_year (year s + 1)) (city s)
              (market_cap_lower s) false) s = Raise e ->
     fst (handle Tick s) = Raise e /\
     year (after Tick s) = Dashboard.wrap_year (year s + 1) /\
     main_source (after Tick s) = T /\
     sub_source (after Tick s) = sub_source s /\
     title_text (after Tick s) = title_text s).
Proof.
  intros Ht. split.
  - intros v T e HT HU.
    rewrite (create_df_value Sunset8 log1p t) in HT, HU by exact Ht.
    unfold Dashboard.after. cbn [Dashboard.handle].
    destruct (slider_update_run Sunset8 log1p t v s Ht) as (fs & _ & E).
    rewrite E, HT, HU. cbn. auto.
  - intros T e HT HU.
    rewrite (create_df_value Sunset8 log1p t) in HT, HU by exact Ht.
    unfold Dashboard.after. cbn [Dashboard.handle].
    destruct (update_year_run Sunset8 log1p t s Ht) as (fs & _ & E).
    cbv zeta in E. rewrite E, HT, HU. cbn. auto.
Qed.

End SubColour.

(** ** Callbacks in sequence *)

Section Sequences.

Variable Sunset8 : palette.
Variable log1p : Q -> option Q.

Local Abbreviation create_df := (Dashboard.create_df Sunset8 log1p).
Local Abbreviation derived := (Dashboard.derived Sunset8 log1p).
Local Abbreviation slider_update := (Dashboard.slider_update Sunset8 log1p).
Local Abbreviation update_year := (Dashboard.update_year Sunset8 log1p).
Local Abbreviation tap_update := (Dashboard.tap_update Sunset8 log1p).
Local Abbreviation handle := (Dashboard.handle Sunset8 log1p).
Local Abbreviation after := (Dashboard.after Sunset8 log1p).
Local Abbreviation run := (Dashboard.run Sunset8 log1p).
Local Abbreviation completes := (Dashboard.completes Sunset8 log1p).
Local Abbreviation completes_all := (Dashboard.completes_all Sunset8 log1p).
Local Abbreviation load := (Dashboard.load Sunset8 log1p).
Local Abbreviation consistent := (Dashboard.consistent Sunset8 log1p).
Local Abbreviation loaded := Dashboard.loaded.
Local Abbreviation value := Dashboard.value.
Local Abbreviation stopped := Dashboard.stopped.
Local Abbreviation running := Dashboard.running.
Local Abbreviation Slide := Dashboard.Slide.
Local Abbreviation Tick := Dashboard.Tick.
Local Abbreviation Click := Dashboard.Click.
Local Abbreviation Y_min := Dashboard.Y_min.
Local Abbreviation Y_max := Dashboard.Y_max.

(** [create_df] where the global does not refer to a loaded table. *)
Lemma create_df_not_loaded y c v m s :
  (forall t, ~ loaded t s) ->
  create_df y c v m s
  = (Raise (match Dashboard.source s with Some _ => KeyError | None => NameError end),
     s).
Proof.
  unfold Dashboard.loaded, Dashboard.source. intros Hs.
  unfold Dashboard.create_df, bind, read_source.
  destruct (nth_error (frames s) us_company_map) as [[t|rows]|] eqn:E.
  - exfalso. apply (Hs t). reflexivity.
  - reflexivity.
  - reflexivity.
Qed.

(** X13.  A slider change repeated with the same value changes nothing
    any more: the second call returns or raises as the first did and
    leaves the lower bound, both data sources and everything else but
    the object store as the first left them. *)
Theorem slider_update_idempotent v s :
  fst (handle (Slide v) (after (Slide v) s)) = fst (handle (Slide v) s) /\
  Views.face (after (Slide v) (after (Slide v) s))
  = Views.face (after (Slide v) s).
Proof.
  unfold Dashboard.after. cbn [Dashboard.handle].
  destruct (loaded_dec s) as [[t Ht]|Hn].
  - destruct (slider_update_run Sunset8 log1p t v s Ht) as (fs & Hfs & E).
    rewrite E.
    destruct (derived t (year s) (city s) v true) as [T|e1] eqn:D1.
    + destruct (derived t (year s) (city s) v false) as [U|e2] eqn:D2; cbn [fst snd].
      * match goal with |- context [slider_update v ?s1] =>
          destruct (slider_update_run Sunset8 log1p t v s1 Hfs) as (fs' & _ & E')
        end.
        rewrite E'. cbn [year city set_frames set_sub_source set_main_source
                         set_market_cap_lower].
        rewrite D1, D2. split; reflexivity.
      * match goal with |- context [slider_update v ?s1] =>
          destruct (slider_update_run Sunset8 log1p t v s1 Hfs) as (fs' & _ & E')
        end.
        rewrite E'. cbn [year city set_frames set_sub_source set_main_source
                         set_market_cap_lower].
        rewrite D1, D2. split; reflexivity.
    + cbn [fst snd].
      match goal with |- context [slider_update v ?s1] =>
        destruct (slider_update_run Sunset8 log1p t v s1 Hfs) as (fs' & _ & E')
      end.
      rewrite E'. cbn [year city set_frames set_sub_source set_main_source
                       set_market_cap_lower].
      rewrite D1. split; reflexivity.
  - assert (E : forall s1, frames s1 = frames s ->
               slider_update v s1
               = (Raise (match Dashboard.source s with
                         | Some _ => KeyError | None => NameError end),
                  set_market_cap_lower v s1)).
    { intros s1 Hf. unfold Dashboard.slider_update, bind, modify, gets.
      cbn [year city set_market_cap_lower].
      rewrite create_df_not_loaded.
      - unfold Dashboard.source. cbn [frames set_market_cap_lower]. now rewrite Hf.
      - intros t. unfold Dashboard.loaded, Dashboard.source.
        cbn [frames set_market_cap_lower]. rewrite Hf. apply Hn. }
    rewrite (E s eq_refl). cbn [fst snd].
    rewrite (E (set_market_cap_lower v s) eq_refl).
    split; reflexivity.
Qed.

Lemma play_beside : preserves Views.beside_click Dashboard.play.
Proof. unfold Dashboard.play; frame. Qed.

(** X14.  Two clicks on the button from the stopped state are a round
    trip: both return, the animation is stopped again with the play label
    and no handle, the document holds no periodic callback, and the store,
    the view parameters, both data sources and both captions are what they
    were. *)
Theorem play_twice_round_trip s :
  stopped s ->
  completes Click s /\ completes Click (after Click s) /\
  running (after Click s) /\
  stopped (after Click (after Click s)) /\
  Views.beside_click (after Click (after Click s)) = Views.beside_click s.
Proof.
  intros Hs. unfold Dashboard.completes, Dashboard.after. cbn [Dashboard.handle].
  destruct (play_from_stopped s Hs) as [C1 R1].
  destruct (play_from_running _ R1) as [C2 S2].
  refine (conj C1 (conj C2 (conj R1 (conj S2 _)))).
  exact (eq_trans (play_beside (snd (Dashboard.play s))) (play_beside s)).
Qed.

Lemma update_year_dated s :
  Views.dated (snd (update_year s))
  = (Dashboard.wrap_year (year s + 1),
     Dashboard.year_label (Dashboard.wrap_year (year s + 1))).
Proof.
  unfold Dashboard.update_year.
  unfold bind at 1. unfold gets at 1. unfold bind at 1. unfold modify at 1.
  unfold bind at 1. unfold gets at 1. unfold bind at 1. unfold modify at 1.
  match goal with
  | |- Views.dated (snd (?m ?st)) = _ =>
      assert (P : preserves Views.dated m) by frame; exact (P st)
  end.
Qed.

Lemma after_dated ev s :
  Y_min <= year s <= Y_max /\ label_text s = Dashboard.year_label (year s) ->
  Y_min <= year (after ev s) <= Y_max /\
  label_text (after ev s) = Dashboard.year_label (year (after ev s)).
Proof.
  intros [Hy Hl]. unfold Dashboard.after.
  assert (K : forall m : M unit, preserves Views.dated m ->
              Y_min <= year (snd (m s)) <= Y_max /\
              label_text (snd (m s)) = Dashboard.year_label (year (snd (m s)))).
  { intros m Hm. specialize (Hm s). unfold Views.dated in Hm.
    injection Hm as -> ->. auto. }
  destruct ev as [new|new| |]; cbn [Dashboard.handle].
  - apply K. destruct new; unfold Dashboard.tap_update; frame.
  - apply K. unfold Dashboard.slider_update; frame.
  - pose proof (update_year_dated s) as D. unfold Views.dated in D.
    injection D as -> ->. split; [|reflexivity].
    unfold Dashboard.wrap_year, Dashboard.Y_min, Dashboard.Y_max in *.
    destruct (Z.ltb_spec 2022 (year s + 1)); lia.
  - apply K. unfold Dashboard.play; frame.
Qed.

(** X15.  From the start-up on and after every sequence of events,
    whether the callbacks returned or raised, the year lies in 2019..2022
    and the year label shows it. *)
Theorem year_in_range_and_labelled t s0 evs :
  load t = Ok s0 ->
  Y_min <= year (run evs s0) <= Y_max /\
  label_text (run evs s0) = Dashboard.year_label (year (run evs s0)).
Proof.
  intros H.
  assert (H0 : Y_min <= year s0 <= Y_max /\
               label_text s0 = Dashboard.year_label (year s0)).
  { destruct (load_run Sunset8 log1p t s0 H) as (T & U & _ & _ & _ & Hy & _).
    destruct (load_captions Sunset8 log1p t s0 H) as (_ & _ & Hl & _).
    rewrite Hy, Hl. unfold Dashboard.Y_min, Dashboard.Y_max.
    split; [lia | reflexivity]. }
  clear H. revert s0 H0. induction evs as [|ev evs IH]; intros s H0; [exact H0|].
  cbn [Dashboard.run fold_left]. apply IH. now apply after_dated.
Qed.

Lemma consistent_run evs : forall s,
  consistent s -> completes_all evs s -> consistent (run evs s).
Proof.
  induction evs as [|ev evs IH]; intros s Hc Hall; [exact Hc|].
  destruct Hall as [H1 H2]. cbn [Dashboard.run fold_left]. apply IH.
  - now apply consistent_after.
  - exact H2.
Qed.

Lemma run_ticks_preserve {A : Type} (proj : state -> A) :
  preserves proj update_year ->
  forall n s, proj (run (repeat Tick n) s) = proj s.
Proof.
  intros P. induction n as [|n IH]; intros s; [reflexivity|].
  cbn [repeat Dashboard.run fold_left].
  fold (run (repeat Tick n) (after Tick s)). rewrite IH.
  unfold Dashboard.after. cbn [Dashboard.handle]. apply P.
Qed.

(** X16.  The animation has period four: when both panels show the
    tables of the view parameters and the year lies in 2019..2022, four
    firings of the periodic callback that all return bring back the year,
    its label and both data sources as they were, with the selected city
    and the lower bound untouched. *)
Theorem four_ticks_come_round s :
  consistent s ->
  Y_min <= year s <= Y_max ->
  completes_all (repeat Tick 4) s ->
  year (run (repeat Tick 4) s) = year s /\
  city (run (repeat Tick 4) s) = city s /\
  market_cap_lower (run (repeat Tick 4) s) = market_cap_lower s /\
  main_source (run (repeat Tick 4) s) = main_source s /\
  sub_source (run (repeat Tick 4) s) = sub_source s /\
  label_text (run (repeat Tick 4) s) = Dashboard.year_label (year s).
Proof.
  intros Hc Hy Hall.
  pose proof (consistent_run _ s Hc Hall) as Hc4.
  pose proof (ticks_year Sunset8 log1p 4 s Hy) as Y4.
  assert (Ey : year (run (repeat Tick 4) s) = year s).
  { rewrite Y4. unfold Dashboard.Y_min, Dashboard.Y_max in *.
    replace (year s - 2019 + Z.of_nat 4) with (year s - 2019 + 1 * (2022 - 2019 + 1)) by lia.
    rewrite Z.mod_add by lia. rewrite Z.mod_small by lia. lia. }
  assert (Bc : city (run (repeat Tick 4) s) = city s)
    by (apply (run_ticks_preserve city); unfold Dashboard.update_year; frame).
  assert (Bv : market_cap_lower (run (repeat Tick 4) s) = market_cap_lower s)
    by (apply (run_ticks_preserve market_cap_lower);
        unfold Dashboard.update_year; frame).
  destruct (consistent_loaded Sunset8 log1p s Hc) as [t Ht].
  assert (Ht4 : loaded t (run (repeat Tick 4) s)).
  { unfold Dashboard.loaded. rewrite run_source. exact Ht. }
  apply (consistent_derived Sunset8 log1p t s Ht) in Hc.
  apply (consistent_derived Sunset8 log1p t _ Ht4) in Hc4.
  rewrite Ey, Bc, Bv in Hc4. destruct Hc as [M1 S1], Hc4 as [M4 S4].
  split; [exact Ey|]. split; [exact Bc|]. split; [exact Bv|].
  split; [congruence|]. split; [congruence|].
  assert (L : forall k x,
            label_text (run (repeat Tick (S k)) x)
            = Dashboard.year_label (year (run (repeat Tick (S k)) x))).
  { clear. induction k as [|k IH]; intros x.
    - cbn [repeat Dashboard.run fold_left]. unfold Dashboard.after.
      cbn [Dashboard.handle]. pose proof (update_year_dated x) as D.
      unfold Views.dated in D. injection D as -> ->. reflexivity.
    - change (repeat Tick (S (S k))) with (Tick :: repeat Tick (S k)).
      cbn [Dashboard.run fold_left]. apply IH. }
  rewrite (L 3%nat s), Ey. reflexivity.
Qed.

End Sequences.

(** ** The ranges of the plots *)

Module PlotFacts.
Import Plots.

Lemma col_min_some l x : In (Some x) l -> exists m, col_min l = Some m.
Proof.
  induction l as [|c l IH]; intros H; [destruct H|].
  cbn [col_min fold_right]. fold (col_min l).
  destruct c as [q|].
  - destruct (col_min l); eexists; reflexivity.
  - destruct H as [H|H]; [discriminate|]. now apply IH.
Qed.

Lemma col_min_In l m : col_min l = Some m -> In (Some m) l.
Proof.
  revert m. induction l as [|c l IH]; intros m; [discriminate|].
  cbn [col_min fold_right]. fold (col_min l).
  destruct c as [q|].
  - destruct (col_min l) as [m'|].
    + destruct (Qle_bool q m'); intros H; injection H as <-.
      * now left.
      * right. now apply IH.
    + intros H. injection H as <-. now left.
  - intros H. right. now apply IH.
Qed.

Lemma col_min_le l : forall m x,
  col_min l = Some m -> In (Some x) l -> (m <= x)%Q.
Proof.
  induction l as [|c l IH]; intros m x Hm Hx; [destruct Hx|].
  cbn [col_min fold_right] in Hm. fold (col_min l) in Hm.
  destruct c as [q|].
  - destruct (col_min l) as [m'|] eqn:E.
    + assert (Hmq : (m <= q)%Q /\ (m <= m')%Q).
      { destruct (Qle_bool q m') eqn:B; injection Hm as <-.
        - split; [apply Qle_refl | now apply Qle_bool_iff].
        - split; [|apply Qle_refl]. apply Qlt_le_weak, Qnot_le_lt.
          intros C. apply Qle_bool_iff in C. congruence. }
      destruct Hmq as [H1 H2]. destruct Hx as [Hx|Hx].
      * injection Hx as <-. exact H1.
      * apply (Qle_trans m m' x H2). now apply IH.
    + injection Hm as <-. destruct Hx as [Hx|Hx].
      * injection Hx as <-. apply Qle_refl.
      * destruct (col_min_some l x Hx) as [m' Hm']. congruence.
  - destruct Hx as [Hx|Hx]; [discriminate|]. now apply IH.
Qed.

Lemma col_max_some l x : In (Some x) l -> exists m, col_max l = Some m.
Proof.
  induction l as [|c l IH]; intros H; [destruct H|].
  cbn [col_max fold_right]. fold (col_max l).
  destruct c as [q|].
  - destruct (col_max l); eexists; reflexivity.
  - destruct H as [H|H]; [discriminate|]. now apply IH.
Qed.

Lemma col_max_In l m : col_max l = Some m -> In (Some m) l.
Proof.
  revert m. induction l as [|c l IH]; intros m; [discriminate|].
  cbn [col_max fold_right]. fold (col_max l).
  destruct c as [q|].
  - destruct (col_max l) as [m'|].
    + destruct (Qle_bool m' q); intros H; injection H as <-.
      * now left.
      * right. now apply IH.
    + intros H. injection H as <-. now left.
  - intros H. right. now apply IH.
Qed.

Lemma col_max_ge l : forall m x,
  col_max l = Some m -> In (Some x) l -> (x <= m)%Q.
Proof.
  induction l as [|c l IH]; intros m x Hm Hx; [destruct Hx|].
  cbn [col_max fold_right] in Hm. fold (col_max l) in Hm.
  destruct c as [q|].
  - destruct (col_max l) as [m'|] eqn:E.
    + assert (Hmq : (q <= m)%Q /\ (m' <= m)%Q).
      { destruct (Qle_bool m' q) eqn:B; injection Hm as <-.
        - split; [apply Qle_refl | now apply Qle_bool_iff].
        - split; [|apply Qle_refl]. apply Qlt_le_weak, Qnot_le_lt.
          intros C. apply Qle_bool_iff in C. congruence. }
      destruct Hmq as [H1 H2]. destruct Hx as [Hx|Hx].
      * injection Hx as <-. exact H1.
      * apply (Qle_trans x m' m); [now apply IH | exact H2].
    + injection Hm as <-. destruct Hx as [Hx|Hx].
      * injection Hx as <-. apply Qle_refl.
      * destruct (col_max_some l x Hx) as [m' Hm']. congruence.
  - destruct Hx as [Hx|Hx]; [discriminate|]. now apply IH.
Qed.

(** A column with a value in it lies, margin included, in its widened
    range. *)
Lemma widened_holds col x :
  In (Some x) col ->
  exists a b,
    range_start (widened col) = Some a /\ range_end (widened col) = Some b /\
    (a <= x - margin)%Q /\ (x + margin <= b)%Q.
Proof.
  intros Hx. destruct (col_min_some col x Hx) as [lo Hlo].
  destruct (col_max_some col x Hx) as [hi Hhi].
  exists (lo - margin)%Q, (hi + margin)%Q. unfold widened.
  cbn [range_start range_end]. rewrite Hlo, Hhi. cbn [option_map].
  split; [reflexivity|]. split; [reflexivity|]. split.
  - unfold Qminus. apply Qplus_le_l. exact (col_min_le col lo x Hlo Hx).
  - apply Qplus_le_l. exact (col_max_ge col hi x Hhi Hx).
Qed.

Lemma shrink_le m : (0 <= m)%Q -> (m * (99 # 100) <= m)%Q.
Proof.
  unfold Qle. cbn [Qnum Qden Qmult]. rewrite Pos2Z.inj_mul. intros H.
  assert (0 < Z.pos (Qden m)) by reflexivity. nia.
Qed.

Lemma stretch_ge m : (0 <= m)%Q -> (m <= m * (11 # 10))%Q.
Proof.
  unfold Qle. cbn [Qnum Qden Qmult]. rewrite Pos2Z.inj_mul. intros H.
  assert (0 < Z.pos (Qden m)) by reflexivity. nia.
Qed.

(** A column of non-negative values lies in its scaled range. *)
Lemma scaled_holds col x :
  (forall z, In (Some z) col -> (0 <= z)%Q) ->
  In (Some x) col ->
  exists a b,
    range_start (scaled col) = Some a /\ range_end (scaled col) = Some b /\
    (a <= x)%Q /\ (x <= b)%Q.
Proof.
  intros Hpos Hx. destruct (col_min_some col x Hx) as [lo Hlo].
  destruct (col_max_some col x Hx) as [hi Hhi].
  exists (lo * (99 # 100))%Q, (hi * (11 # 10))%Q. unfold scaled.
  cbn [range_start range_end]. rewrite Hlo, Hhi. cbn [option_map].
  split; [reflexivity|]. split; [reflexivity|]. split.
  - apply (Qle_trans _ lo).
    + apply shrink_le. apply Hpos. now apply col_min_In.
    + exact (col_min_le col lo x Hlo Hx).
  - apply (Qle_trans _ hi).
    + exact (col_max_ge col hi x Hhi Hx).
    + apply stretch_ge. apply Hpos. now apply col_max_In.
Qed.

End PlotFacts.

(** X17.  The map the main plot opens with holds every city with room to
    spare: each mean coordinate on record lies at least 200 km inside the
    x range, respectively the y range, that [plot_city] computes from the
    table. *)
Theorem plot_city_ranges_hold_cities main_df :
  (forall x, In (Some x) (Plots.table_x main_df) ->
     exists a b,
       Plots.range_start (fst (Plots.plot_city_ranges main_df)) = Some a /\
       Plots.range_end (fst (Plots.plot_city_ranges main_df)) = Some b /\
       (a <= x - Plots.margin)%Q /\ (x + Plots.margin <= b)%Q) /\
  (forall y, In (Some y) (Plots.table_y main_df) ->
     exists a b,
       Plots.range_start (snd (Plots.plot_city_ranges main_df)) = Some a /\
       Plots.range_end (snd (Plots.plot_city_ranges main_df)) = Some b /\
       (a <= y - Plots.margin)%Q /\ (y + Plots.margin <= b)%Q).
Proof.
  unfold Plots.plot_city_ranges. cbn [fst snd]. split.
  - intros x Hx. now apply PlotFacts.widened_holds.
  - intros y Hy. now apply PlotFacts.widened_holds.
Qed.

(** X18.  The fixed ranges of the subplot are taken from the columns of
    one year, and raise [KeyError] without them.  When that year's
    employees and market caps on record are all non-negative, every
    company of that year lies within both ranges. *)
Theorem plot_company_ranges_hold_companies t y :
  (~ In y (year_columns t) -> Plots.plot_company_ranges t y = Raise KeyError) /\
  (In y (year_columns t) ->
   (forall r z, In r (source_rows t) -> src_Employees r y = Some z -> (0 <= z)%Q) ->
   (forall r z, In r (source_rows t) -> src_Market_Cap r y = Some z -> (0 <= z)%Q) ->
   exists xr yr,
     Plots.plot_company_ranges t y = Ok (xr, yr) /\
     (forall r e, In r (source_rows t) -> src_Employees r y = Some e ->
        exists a b, Plots.range_start xr = Some a /\ Plots.range_end xr = Some b /\
                    (a <= e)%Q /\ (e <= b)%Q) /\
     (forall r m, In r (source_rows t) -> src_Market_Cap r y = Some m ->
        exists a b, Plots.range_start yr = Some a /\ Plots.range_end yr = Some b /\
                    (a <= m)%Q /\ (m <= b)%Q)).
Proof.
  unfold Plots.plot_company_ranges. split.
  - intros Hy.
    destruct (existsb (Z.eqb y) (year_columns t)) eqn:E; [|reflexivity].
    exfalso. apply Hy. apply existsb_exists in E. destruct E as (z & Hz & Hyz).
    apply Z.eqb_eq in Hyz. now subst z.
  - intros Hy He Hm.
    assert (E : existsb (Z.eqb y) (year_columns t) = true).
    { apply existsb_exists. exists y. split; [exact Hy | apply Z.eqb_refl]. }
    rewrite E. eexists. eexists. split; [reflexivity|]. split.
    + intros r e Hr Hre. apply PlotFacts.scaled_holds.
      * intros z Hz. apply in_map_iff in Hz. destruct Hz as (r' & Hz & Hr').
        now apply (He r' z).
      * apply in_map_iff. exists r. auto.
    + intros r m Hr Hrm. apply PlotFacts.scaled_holds.
      * intros z Hz. apply in_map_iff in Hz. destruct Hz as (r' & Hz & Hr').
        now apply (Hm r' z).
      * apply in_map_iff. exists r. auto.
Qed.

(** * The further properties on sample tables *)

Module OnMoreSamples.
Import Samples MoreSamples.

Local Open Scope string_scope.

Local Abbreviation create_df := (Dashboard.create_df sunset log1p0).
Local Abbreviation handle := (Dashboard.handle sunset log1p0).
Local Abbreviation after := (Dashboard.after sunset log1p0).
Local Abbreviation run := (Dashboard.run sunset log1p0).
Local Abbreviation completes := (Dashboard.completes sunset log1p0).
Local Abbreviation load := (Dashboard.load sunset log1p0).
Local Abbreviation value := Dashboard.value.
Local Abbreviation blank := Dashboard.blank.
Local Abbreviation Tick := Dashboard.Tick.
Local Abbreviation Click := Dashboard.Click.
Local Abbreviation Tap := Dashboard.Tap.
Local Abbreviation Slide := Dashboard.Slide.

(** X1, witness: [no_2019] asked for 2019 and for 2020. *)
Lemma create_df_missing_year_witness :
  create_df 2019 "San Jose" 0 true (blank no_2019)
  = (Raise KeyError, blank no_2019) /\
  value (create_df 2020 "San Jose" 0 true) (blank no_2019) <> Raise KeyError.
Proof.
  destruct (create_df_missing_year sunset log1p0 no_2019 2019 "San Jose" 0 true
              (blank no_2019) eq_refl) as [H1 _].
  destruct (create_df_missing_year sunset log1p0 no_2019 2020 "San Jose" 0 true
              (blank no_2019) eq_refl) as [_ H2].
  split.
  - apply H1. intros [H|[H|[H|[]]]]; discriminate.
  - apply H2. left. reflexivity.
Defined.

(** X2, witness: [bay] has no row of Boston. *)
Lemma create_df_unknown_city_witness :
  value (create_df 2021 "Boston" 0 false) (blank bay) = Ok (SubTable []).
Proof.
  apply (create_df_unknown_city sunset log1p0 bay 2021 "Boston" 0 (blank bay)).
  - reflexivity.
  - right. right. left. reflexivity.
  - intros r [<-|[<-|[<-|[]]]]; discriminate.
Defined.

(** X3, witness: San Jose in [bay], 2020, lower bound 20. *)
Lemma detail_table_rows_witness :
  Dashboard.detail_rows bay_detail_20
  = map (mask_row 20) (filter (in_city "San Jose") (rows_of (project 2020 bay))) /\
  (forall r, In r (Dashboard.detail_rows bay_detail_20) -> w_City r = "San Jose") /\
  Dashboard.table_rows bay_detail_20
  = List.length (filter (fun r => String.eqb (src_City r) "San Jose")
                   (source_rows bay)) /\
  exists col, Dashboard.table_colors bay_detail_20
              = repeat col (Dashboard.table_rows bay_detail_20).
Proof.
  apply (detail_table_rows sunset log1p0 bay 2020 "San Jose" 20 (blank bay)).
  - reflexivity.
  - reflexivity.
  - vm_compute. reflexivity.
Defined.

(** X4, witness: the start-up on [bay]. *)
Lemma startup_needs_city_witness :
  In 2022 (year_columns bay) /\
  (exists r, In r (source_rows bay) /\ src_City r = "San Jose") /\
  label_text bay_start = "Year: 2022" /\
  title_text bay_start = "Companies in San Jose (2022)".
Proof.
  apply (startup_needs_city sunset log1p0 bay bay_start OnSamples.bay_loads).
Defined.

(** X5, witness: [bay] has two cities, so index 2 is out of range. *)
Lemma tap_out_of_range_witness :
  handle (Tap [2%nat]) (run [Slide 20] bay_start)
  = (Raise IndexError, run [Slide 20] bay_start).
Proof.
  apply (tap_out_of_range sunset log1p0 bay bay_start [Slide 20] 2%nat []
           OnSamples.bay_loads).
  vm_compute. constructor.
Defined.

(** X7, witness: the main table of [two_cities]. *)
Lemma main_table_one_row_per_city_witness :
  Keys.increasing (Dashboard.table_City (MainTable two_cities_rows)) /\
  NoDup (Dashboard.table_City (MainTable two_cities_rows)) /\
  (forall k, In k (Dashboard.table_City (MainTable two_cities_rows)) <->
             exists r, In r (source_rows two_cities) /\ src_City r = k).
Proof.
  apply (main_table_one_row_per_city sunset log1p0 two_cities 2020 "CityA" 0
           (blank two_cities)).
  - reflexivity.
  - vm_compute. reflexivity.
Defined.

(** X8, witness: [two_cities] with the lower bounds 0 and 20. *)
Lemma raising_the_bound_lowers_counts_witness :
  Forall2 (fun a b => fst a = fst b /\ (snd b <= snd a)%nat)
          (Views.counts (MainTable two_cities_rows))
          (Views.counts (MainTable two_cities_rows_20)).
Proof.
  apply (raising_the_bound_lowers_counts sunset log1p0 two_cities 2020 "CityA"
           0 20 (blank two_cities)).
  - reflexivity.
  - apply Qle_bool_iff. reflexivity.
  - vm_compute. reflexivity.
  - vm_compute. reflexivity.
Defined.

(** X9, witness: in [two_cities] no market cap lies below 5. *)
Lemma bound_below_every_cap_masks_nothing_witness :
  nth_error (frames (snd (create_df 2020 "CityA" 5 true (blank two_cities))))
            (List.length (frames (blank two_cities)))
  = Some (Work (rows_of (project 2020 two_cities))) /\
  (forall U, value (create_df 2020 "CityA" 5 false) (blank two_cities) = Ok U ->
             Dashboard.detail_rows U
             = filter (in_city "CityA") (rows_of (project 2020 two_cities))).
Proof.
  apply (bound_below_every_cap_masks_nothing sunset log1p0 two_cities 2020
           "CityA" 5 true (blank two_cities)).
  - reflexivity.
  - reflexivity.
  - intros r q [<-|[<-|[<-|[]]]] E; injection E as <-;
      apply Qle_bool_iff; reflexivity.
Defined.



(** X12, witness: on [heavy] a slider change pushes the main table and
    then raises. *)
Lemma callback_can_stop_half_way_witness :
  fst (handle (Slide 0) heavy_blank) = Raise IndexError /\
  market_cap_lower (after (Slide 0) heavy_blank) = 0%Q /\
  main_source (after (Slide 0) heavy_blank) = heavy_main /\
  sub_source (after (Slide 0) heavy_blank) = sub_source heavy_blank.
Proof.
  destruct (callback_can_stop_half_way sunset log1p0 heavy heavy_blank eq_refl)
    as [H _].
  apply (H 0%Q heavy_main IndexError); vm_compute; reflexivity.
Defined.

(** X14, witness: the start-up on [bay] leaves the animation stopped. *)
Lemma play_twice_round_trip_witness :
  completes Click bay_start /\ completes Click (after Click bay_start) /\
  Dashboard.running (after Click bay_start) /\
  Dashboard.stopped (after Click (after Click bay_start)) /\
  Views.beside_click (after Click (after Click bay_start))
  = Views.beside_click bay_start.
Proof.
  apply (play_twice_round_trip sunset log1p0 bay_start).
  repeat split.
Defined.

(** X15, witness: events on [bay], a firing past 2022 among them. *)
Lemma year_in_range_and_labelled_witness :
  Dashboard.Y_min <= year (run [Tick; Slide 20; Tick] bay_start) <= Dashboard.Y_max /\
  label_text (run [Tick; Slide 20; Tick] bay_start)
  = Dashboard.year_label (year (run [Tick; Slide 20; Tick] bay_start)).
Proof.
  apply (year_in_range_and_labelled sunset log1p0 bay bay_start
           [Tick; Slide 20; Tick] OnSamples.bay_loads).
Defined.

(** X16, witness: four firings from the start-up on [bay]. *)
Lemma four_ticks_come_round_witness :
  year (run (repeat Tick 4) bay_start) = year bay_start /\
  city (run (repeat Tick 4) bay_start) = city bay_start /\
  market_cap_lower (run (repeat Tick 4) bay_start) = market_cap_lower bay_start /\
  main_source (run (repeat Tick 4) bay_start) = main_source bay_start /\
  sub_source (run (repeat Tick 4) bay_start) = sub_source bay_start /\
  label_text (run (repeat Tick 4) bay_start)
  = Dashboard.year_label (year bay_start).
Proof.
  apply (four_ticks_come_round sunset log1p0 bay_start).
  - split; vm_compute; reflexivity.
  - split; vm_compute; discriminate.
  - vm_compute. repeat split.
Defined.

(** X17, witness: the main table of [two_cities], all coordinates 0. *)
Lemma plot_city_ranges_hold_cities_witness :
  exists a b,
    Plots.range_start (fst (Plots.plot_city_ranges (MainTable two_cities_rows)))
    = Some a /\
    Plots.range_end (fst (Plots.plot_city_ranges (MainTable two_cities_rows)))
    = Some b /\
    (a <= 0 - Plots.margin)%Q /\ (0 + Plots.margin <= b)%Q.
Proof.
  destruct (plot_city_ranges_hold_cities (MainTable two_cities_rows)) as [H _].
  apply (H 0%Q). vm_compute. right. left. reflexivity.
Defined.

(** X18, witness: the ranges of the subplot on [bay] for 2022. *)
Lemma plot_company_ranges_hold_companies_witness :
  exists xr yr,
    Plots.plot_company_ranges bay 2022 = Ok (xr, yr) /\
    (forall r e, In r (source_rows bay) -> src_Employees r 2022 = Some e ->
       exists a b, Plots.range_start xr = Some a /\ Plots.range_end xr = Some b /\
                   (a <= e)%Q /\ (e <= b)%Q) /\
    (forall r m, In r (source_rows bay) -> src_Market_Cap r 2022 = Some m ->
       exists a b, Plots.range_start yr = Some a /\ Plots.range_end yr = Some b /\
                   (a <= m)%Q /\ (m <= b)%Q).
Proof.
  destruct (plot_company_ranges_hold_companies bay 2022) as [_ H].
  apply H.
  - right. right. right. left. reflexivity.
  - intros r z [<-|[<-|[<-|[]]]] E; injection E as <-; apply Qle_bool_iff; reflexivity.
  - intros r z [<-|[<-|[<-|[]]]] E; injection E as <-; apply Qle_bool_iff; reflexivity.
Defined.

End OnMoreSamples.
